(** * Tutor agent: command dispatch and prompt construction

    A shallow embedding of [src/tutor_agent.py] and the properties of its
    command parser, its responder and its chat handler.

    Text is modelled by [string]: the sequence of bytes of the UTF-8
    encoding of a Python [str].  The library methods [str.strip],
    [str.lower], [str.startswith] and [str.replace] are modelled on the
    ASCII range, where a character is one byte and the methods act on it
    exactly as written below; bytes from 128 on (parts of a longer
    character) are carried through unchanged, so the model is that of the
    program on ASCII text, the alphabet of its commands.  Outside that
    range Python strips further whitespace and lower-cases further letters;
    a property whose truth depends on how a text is trimmed or lower-cased
    is therefore stated for the texts of [ascii_text], on which the methods
    and their model agree character by character. *)

From Stdlib Require Import Bool Arith Lia List Ascii String NArith.
Import ListNotations.

Open Scope string_scope.
Open Scope bool_scope.

(** ** Python's string methods *)

Module Py.

(** [c.isspace()] on the ASCII range: tab, line feed, vertical tab, form
    feed, carriage return, the four separators FS GS RS US, and space. *)
Definition isspace (c : ascii) : bool :=
  let n := nat_of_ascii c in
  ((9 <=? n)%nat && (n <=? 13)%nat) || ((28 <=? n)%nat && (n <=? 32)%nat).

(** [c.lower()] on the ASCII range: [A]..[Z] move to [a]..[z]. *)
Definition lower_char (c : ascii) : ascii :=
  let n := nat_of_ascii c in
  if (65 <=? n)%nat && (n <=? 90)%nat then ascii_of_nat (n + 32) else c.

(** [s.lower()] on ASCII text *)
Fixpoint lower (s : string) : string :=
  match s with
  | EmptyString => EmptyString
  | String c s' => String (lower_char c) (lower s')
  end.

(** [s.lstrip()] on ASCII text *)
Fixpoint lstrip (s : string) : string :=
  match s with
  | EmptyString => EmptyString
  | String c s' => if isspace c then lstrip s' else s
  end.

(** [s.rstrip()] on ASCII text *)
Fixpoint rstrip (s : string) : string :=
  match s with
  | EmptyString => EmptyString
  | String c s' =>
      match rstrip s' with
      | EmptyString => if isspace c then EmptyString else String c EmptyString
      | r => String c r
      end
  end.

(** [s.strip()] on ASCII text: whitespace removed at both ends. *)
Definition strip (s : string) : string := rstrip (lstrip s).

(** [s.startswith(p)] *)
Fixpoint startswith (p s : string) : bool :=
  match p, s with
  | EmptyString, _ => true
  | String _ _, EmptyString => false
  | String a p', String b s' => Ascii.eqb a b && startswith p' s'
  end.

(** [sub in s] *)
Fixpoint contains (sub s : string) : bool :=
  startswith sub s ||
  match s with
  | EmptyString => false
  | String _ s' => contains sub s'
  end.

(** The scan of [s.replace(old, new)] for a non-empty [old]: occurrences
    are taken from the left and do not overlap.  [skip] counts the
    characters of the occurrence just matched that are still to be
    passed over. *)
Fixpoint replace_scan (old new : string) (skip : nat) (s : string) : string :=
  match s with
  | EmptyString => EmptyString
  | String c s' =>
      match skip with
      | S k => replace_scan old new k s'
      | O =>
          if startswith old s
          then new ++ replace_scan old new (String.length old - 1) s'
          else String c (replace_scan old new 0 s')
      end
  end.

(** With an empty [old], Python puts [new] before every character and at
    the end. *)
Fixpoint interleave (new s : string) : string :=
  match s with
  | EmptyString => new
  | String c s' => new ++ String c (interleave new s')
  end.

(** [s.replace(old, new)] *)
Definition replace (old new s : string) : string :=
  match old with
  | EmptyString => interleave new s
  | String _ _ => replace_scan old new 0 s
  end.

End Py.

(** ** The command parser *)

(** The tag that [parse_chat_command] returns first; the source writes the
    six tags as string constants. *)
Inductive command_type : Type :=
  | curriculum | socratic | quiz | project | help | general.

(** [parse_chat_command(text)], lines 71-90.  The second component is the
    content; [None] is Python's [None], returned for [/help].  With the
    string methods of [Py] this is the function of the source on ASCII
    text. *)
Definition parse_chat_command (text : string) : command_type * option string :=
  let text := Py.lower (Py.strip text) in
  if Py.startswith "/curriculum " text then
    let topic := Py.strip (Py.replace "/curriculum " EmptyString text) in
    (curriculum, Some topic)
  else if Py.startswith "/socratic " text then
    let concept := Py.strip (Py.replace "/socratic " EmptyString text) in
    (socratic, Some concept)
  else if Py.startswith "/quiz " text then
    let topic := Py.strip (Py.replace "/quiz " EmptyString text) in
    (quiz, Some topic)
  else if Py.startswith "/project " text then
    let topic := Py.strip (Py.replace "/project " EmptyString text) in
    (project, Some topic)
  else if Py.startswith "/help" text then
    (help, None)
  else
    (general, Some text).

(** ** Prompts and fixed texts *)

(** A line feed and a double quote, as they stand in the source's literals. *)
Definition nl : string := String "010"%char EmptyString.
Definition dquote : string := String "034"%char EmptyString.

(** The prompt of [generate_curriculum], lines 94-119. *)
Definition curriculum_prompt (topic : string) : string :=
  nl ++
  "    Create a practical learning roadmap for " ++ dquote ++ topic ++ dquote ++ ". Provide:" ++ nl ++
  "    " ++ nl ++
  "    WEEK 1: Foundation" ++ nl ++
  "    - Core concepts to learn" ++ nl ++
  "    - 2-3 hands-on exercises" ++ nl ++
  "    - Recommended resources" ++ nl ++
  "    " ++ nl ++
  "    WEEK 2: Building Skills  " ++ nl ++
  "    - Key skills to develop" ++ nl ++
  "    - Practice projects" ++ nl ++
  "    - Resources" ++ nl ++
  "    " ++ nl ++
  "    WEEK 3: Application" ++ nl ++
  "    - Real-world applications" ++ nl ++
  "    - Intermediate projects" ++ nl ++
  "    - Advanced resources" ++ nl ++
  "    " ++ nl ++
  "    WEEK 4: Mastery" ++ nl ++
  "    - Advanced topics" ++ nl ++
  "    - Capstone project ideas" ++ nl ++
  "    - Next steps" ++ nl ++
  "    " ++ nl ++
  "    Be specific and actionable. Include actual resource names, websites, or tools when possible." ++ nl ++
  "    Format as clean text without HTML or markdown." ++ nl ++
  "    ".

(** The prompt of [generate_socratic_questions], lines 128-137. *)
Definition socratic_prompt (concept : string) : string :=
  nl ++
  "    You are a Socratic tutor helping a student understand " ++ dquote ++ concept ++ dquote ++ "." ++ nl ++
  "    Create 6 progressive guiding questions that:" ++ nl ++
  "    1. Start with basic understanding" ++ nl ++
  "    2. Build complexity gradually" ++ nl ++
  "    3. Encourage critical thinking" ++ nl ++
  "    4. Connect to real-world applications" ++ nl ++
  "    " ++ nl ++
  "    Return as a numbered list, one question per line." ++ nl ++
  "    ".

(** The prompt of [generate_quiz], lines 146-158. *)
Definition quiz_prompt (topic : string) : string :=
  nl ++
  "    Act as a quiz creator. Generate atleast 5 multiple-choice questions on " ++ dquote ++ topic ++ dquote ++ "." ++ nl ++
  "    Format each question as:" ++ nl ++
  "    " ++ nl ++
  "    Question X: [Question text]" ++ nl ++
  "    A) [Option A]" ++ nl ++
  "    B) [Option B]  " ++ nl ++
  "    C) [Option C]" ++ nl ++
  "    D) [Option D]" ++ nl ++
  "    Answer: [Correct letter]" ++ nl ++
  "    " ++ nl ++
  "    Include brief explanations for the correct answers." ++ nl ++
  "    ".

(** The prompt of [generate_project], lines 167-177. *)
Definition project_prompt (topic : string) : string :=
  nl ++
  "    Act as a mentor. Suggest a beginner-friendly project for " ++ dquote ++ topic ++ dquote ++ "." ++ nl ++
  "    Include:" ++ nl ++
  "    - Project overview" ++ nl ++
  "    - Learning objectives" ++ nl ++
  "    - Step-by-step breakdown" ++ nl ++
  "    - Required resources" ++ nl ++
  "    - Expected timeline" ++ nl ++
  "    " ++ nl ++
  "    Keep it practical and achievable." ++ nl ++
  "    ".

(** The prompt of the general branch of [handle_message], lines 246-266. *)
Definition general_prompt (item_text : string) : string :=
  nl ++
  "                You are a helpful AI tutor. The student said: " ++ dquote ++ item_text ++ dquote ++ nl ++
  "                " ++ nl ++
  "                IMPORTANT: Provide direct, actionable help. Don't ask multiple questions back." ++ nl ++
  "                " ++ nl ++
  "                If they want to learn something:" ++ nl ++
  "                - Give them a clear, practical roadmap or explanation" ++ nl ++
  "                - Provide specific steps they can take" ++ nl ++
  "                - Include resources or next actions" ++ nl ++
  "                " ++ nl ++
  "                If they ask about a concept:" ++ nl ++
  "                - Explain it clearly with examples" ++ nl ++
  "                - Make it practical and applicable" ++ nl ++
  "                " ++ nl ++
  "                If they want a roadmap for a topic:" ++ nl ++
  "                - Create a structured learning path" ++ nl ++
  "                - Include timeframes and milestones" ++ nl ++
  "                - Suggest specific resources" ++ nl ++
  "                " ++ nl ++
  "                Keep your response direct, practical, and immediately useful. Avoid asking multiple clarifying questions - instead, provide the most commonly needed information for their request." ++ nl ++
  "                ".

(** [get_help_text()], lines 184-198. *)
Definition get_help_text : string :=
  nl ++
  "🎓 Welcome to your AI Tutor! Here are the available commands:" ++ nl ++
  nl ++
  "📚 /curriculum [topic] - Get a 4-week learning curriculum" ++ nl ++
  "❓ /socratic [concept] - Get Socratic questioning for deeper understanding  " ++ nl ++
  "📝 /quiz [topic] - Generate practice quiz questions" ++ nl ++
  "🛠️ /project [topic] - Get project suggestions and guidance" ++ nl ++
  "❓ /help - Show this help message" ++ nl ++
  nl ++
  "You can also just chat naturally and I'll do my best to help with your learning!" ++ nl ++
  nl ++
  "Example: " ++ dquote ++ "/curriculum machine learning" ++ dquote ++ " or " ++ dquote ++ "/quiz python basics" ++ dquote ++ nl ++
  "    ".

(** The greeting sent on a session start, line 222. *)
Definition welcome_text : string :=
  "🎓 Welcome to your AI Tutor! Type /help to see available commands or just start asking questions!".

(** The farewell sent on a session end, line 280. *)
Definition farewell_text : string :=
  "👋 Thanks for learning with me today! Feel free to start a new session anytime you need help.".

(** The reply of the general branch when the backend fails, line 271. *)
Definition apology_text : string :=
  "I'm having trouble processing that right now. Try using one of the specific commands like /help to see what I can do!".

(** ** Exceptions, messages and the world *)

(** A Python exception caught by [except Exception as e]; [str(e)] is its
    message. *)
Inductive exn : Type :=
  | Exception (message : string).

Definition str (e : exn) : string :=
  match e with
  | Exception message => message
  end.

(** What a call does: it returns a value or raises. *)
Inductive outcome (A : Type) : Type :=
  | Returned (a : A)
  | Raised (e : exn).

Arguments Returned {A} a.
Arguments Raised {A} e.

(** The content items of a chat message that the handler tells apart; any
    other item of the chat protocol is [OtherContent]. *)
Inductive AgentContent : Type :=
  | StartSessionContent
  | TextContent (text : string)
  | EndSessionContent
  | OtherContent.

Record ChatMessage : Type := {
  timestamp : N;
  msg_id : N;
  content : list AgentContent
}.

Record ChatAcknowledgement : Type := {
  ack_timestamp : N;
  acknowledged_msg_id : N
}.

(** What the chat handler passes to [ctx.send]. *)
Inductive Envelope : Type :=
  | Acknowledgement (a : ChatAcknowledgement)
  | Chat (m : ChatMessage).

(** The effects of the handler, as a record of what has happened so far:
    the messages handed to [ctx.send] with their destination, the prompts
    handed to [model.generate_content], the lines given to
    [ctx.logger.info], all three oldest first, and how many times the clock
    and the UUID generator were read. *)
Record World : Type := {
  outbox : list (string * Envelope);
  prompts : list string;
  logged : list string;
  clock_reads : nat;
  uuid_draws : nat
}.

(** The collaborators that the program consults.  [generate_content n p] is
    what the backend does on its call number [n] (from 0) with prompt [p]:
    the text of the response, or the exception raised by the call or by
    reading the response's text.  [utcnow_at] and [uuid4_at] give the value
    of each reading of the clock and each draw of a UUID. *)
Record Environment : Type := {
  generate_content : nat -> string -> outcome string;
  utcnow_at : nat -> N;
  uuid4_at : nat -> N
}.

(** ** Computations *)

(** A computation reads and extends the world, and returns or raises. *)
Definition M (A : Type) : Type := World -> outcome A * World.

Definition ret {A : Type} (a : A) : M A :=
  fun w => (Returned a, w).

Definition bind {A B : Type} (m : M A) (k : A -> M B) : M B :=
  fun w =>
    match m w with
    | (Returned a, w') => k a w'
    | (Raised e, w') => (Raised e, w')
    end.

(** [try: m  except Exception as e: handler e] *)
Definition try_except {A : Type} (m : M A) (handler : exn -> M A) : M A :=
  fun w =>
    match m w with
    | (Returned a, w') => (Returned a, w')
    | (Raised e, w') => handler e w'
    end.

Notation "x <- m ;; k" := (bind m (fun x => k))
  (at level 61, m at next level, right associativity).
Notation "m ;; k" := (bind m (fun _ => k))
  (at level 61, right associativity).

(** [for item in items: body item] *)
Fixpoint for_each {A : Type} (body : A -> M unit) (items : list A) : M unit :=
  match items with
  | [] => ret tt
  | item :: rest => body item ;; for_each body rest
  end.

(** The world with one more entry in one of its records. *)
Definition noted (w : World) (line : string) : World :=
  {| outbox := outbox w; prompts := prompts w;
     logged := (logged w ++ [line])%list;
     clock_reads := clock_reads w; uuid_draws := uuid_draws w |}.

Definition posted (w : World) (destination : string) (message : Envelope) : World :=
  {| outbox := (outbox w ++ [(destination, message)])%list; prompts := prompts w;
     logged := logged w;
     clock_reads := clock_reads w; uuid_draws := uuid_draws w |}.

Definition asked (w : World) (prompt : string) : World :=
  {| outbox := outbox w; prompts := (prompts w ++ [prompt])%list;
     logged := logged w;
     clock_reads := clock_reads w; uuid_draws := uuid_draws w |}.

Definition clock_read (w : World) : World :=
  {| outbox := outbox w; prompts := prompts w; logged := logged w;
     clock_reads := S (clock_reads w); uuid_draws := uuid_draws w |}.

Definition uuid_drawn (w : World) : World :=
  {| outbox := outbox w; prompts := prompts w; logged := logged w;
     clock_reads := clock_reads w; uuid_draws := S (uuid_draws w) |}.

Section Agent.

Variable env : Environment.

(** [ctx.logger.info(line)] *)
Definition logger_info (line : string) : M unit :=
  fun w => (Returned tt, noted w line).

(** [await ctx.send(destination, message)] *)
Definition ctx_send (destination : string) (message : Envelope) : M unit :=
  fun w => (Returned tt, posted w destination message).

(** [datetime.utcnow()] *)
Definition utcnow : M N :=
  fun w => (Returned (utcnow_at env (clock_reads w)), clock_read w).

(** [uuid4()] *)
Definition uuid4 : M N :=
  fun w => (Returned (uuid4_at env (uuid_draws w)), uuid_drawn w).

(** [model.generate_content(prompt).text]: one backend call. *)
Definition model_generate_content (prompt : string) : M string :=
  fun w => (generate_content env (List.length (prompts w)) prompt, asked w prompt).

(** [create_text_chat(text, end_session)], lines 60-69. *)
Definition create_text_chat (text : string) (end_session : bool) : M ChatMessage :=
  let content := [TextContent text] in
  let content := if end_session then (content ++ [EndSessionContent])%list else content in
  now <- utcnow ;;
  id <- uuid4 ;;
  ret {| timestamp := now; msg_id := id; content := content |}.

(** [generate_curriculum(topic)], lines 92-124. *)
Definition generate_curriculum (topic : string) : M string :=
  let prompt := curriculum_prompt topic in
  try_except
    (model_generate_content prompt)
    (fun e => ret ("Error generating curriculum: " ++ str e)).

(** [generate_socratic_questions(concept)], lines 126-142. *)
Definition generate_socratic_questions (concept : string) : M string :=
  let prompt := socratic_prompt concept in
  try_except
    (model_generate_content prompt)
    (fun e => ret ("Error generating Socratic questions: " ++ str e)).

(** [generate_quiz(topic)], lines 144-163. *)
Definition generate_quiz (topic : string) : M string :=
  let prompt := quiz_prompt topic in
  try_except
    (model_generate_content prompt)
    (fun e => ret ("Error generating quiz: " ++ str e)).

(** [generate_project(topic)], lines 165-182. *)
Definition generate_project (topic : string) : M string :=
  let prompt := project_prompt topic in
  try_except
    (model_generate_content prompt)
    (fun e => ret ("Error generating project: " ++ str e)).

(** The last branch of the dispatch in [handle_message], lines 244-271:
    the general tutoring reply, built from the text of the item as it
    was received. *)
Definition general_reply (item_text : string) : M string :=
  let prompt := general_prompt item_text in
  try_except
    (model_generate_content prompt)
    (fun _ => ret apology_text).

(** The dispatch of [handle_message] on a text item, lines 230-271: from
    the text of the item to [response_text].  A generator is called when
    the tag is its command and the content is a non-empty string. *)
Definition respond (item_text : string) : M string :=
  let (command, content) := parse_chat_command item_text in
  match command, content with
  | curriculum, Some (String _ _ as topic) => generate_curriculum topic
  | socratic, Some (String _ _ as concept) => generate_socratic_questions concept
  | quiz, Some (String _ _ as topic) => generate_quiz topic
  | project, Some (String _ _ as topic) => generate_project topic
  | help, _ => ret get_help_text
  | _, _ => general_reply item_text
  end.

(** The body of the loop of [handle_message], lines 219-286. *)
Definition handle_content (sender : string) (item : AgentContent) : M unit :=
  match item with
  | StartSessionContent =>
      logger_info ("🟢 Session started with " ++ sender) ;;
      welcome_msg <- create_text_chat welcome_text false ;;
      ctx_send sender (Chat welcome_msg)
  | TextContent text =>
      logger_info ("💬 Text message from " ++ sender ++ ": " ++ text) ;;
      response_text <- respond text ;;
      response_message <- create_text_chat response_text false ;;
      ctx_send sender (Chat response_message)
  | EndSessionContent =>
      logger_info ("🔴 Session ended with " ++ sender) ;;
      farewell_msg <- create_text_chat farewell_text true ;;
      ctx_send sender (Chat farewell_msg)
  | OtherContent =>
      logger_info ("❓ Received unexpected content type from " ++ sender)
  end.

(** [handle_message(ctx, sender, msg)], lines 205-286. *)
Definition handle_message (sender : string) (msg : ChatMessage) : M unit :=
  logger_info ("📨 Received message from " ++ sender) ;;
  now <- utcnow ;;
  ctx_send sender
    (Acknowledgement {| ack_timestamp := now; acknowledged_msg_id := msg_id msg |}) ;;
  for_each (handle_content sender) (content msg).

End Agent.

(** The world before anything has happened. *)
Definition initial_world : World :=
  {| outbox := []; prompts := []; logged := []; clock_reads := 0; uuid_draws := 0 |}.

(** The four commands that take an argument, with the tag of each, in the
    order in which [parse_chat_command] tries them. *)
Definition command_prefixes : list (string * command_type) :=
  [("/curriculum ", curriculum); ("/socratic ", socratic);
   ("/quiz ", quiz); ("/project ", project)].

(** Whether the normalized text starts with one of the five commands. *)
Definition matches_command (text : string) : bool :=
  Py.startswith "/curriculum " text || Py.startswith "/socratic " text ||
  Py.startswith "/quiz " text || Py.startswith "/project " text ||
  Py.startswith "/help" text.

(** [s.strip() == ''] for ASCII text: every character is ASCII
    whitespace. *)
Fixpoint blank (s : string) : bool :=
  match s with
  | EmptyString => true
  | String c s' => Py.isspace c && blank s'
  end.

(** The texts on which the string methods of Python and those of [Py]
    agree: every character is in the ASCII range, a code point below 128. *)
Definition ascii_char (c : ascii) : bool :=
  (nat_of_ascii c <? 128)%nat.

Fixpoint ascii_text (s : string) : bool :=
  match s with
  | EmptyString => true
  | String c s' => ascii_char c && ascii_text s'
  end.

(** What the backend does if it is called in world [w] with [prompt]. *)
Definition backend_answer (env : Environment) (w : World) (prompt : string) : outcome string :=
  generate_content env (List.length (prompts w)) prompt.

(** How many items of a message get a reply: all but the unexpected ones. *)
Definition replied (item : AgentContent) : bool :=
  match item with
  | OtherContent => false
  | _ => true
  end.

(** The two shapes of a reply and of the world after it: the static help
    text with the world untouched, or one backend call whose text is
    returned and whose exception is rendered as text. *)
Inductive reply_case (env : Environment) (w : World) : string -> World -> Prop :=
  | reply_static :
      reply_case env w get_help_text w
  | reply_backend (prompt : string) (render : exn -> string) :
      reply_case env w
        match backend_answer env w prompt with
        | Returned answer => answer
        | Raised e => render e
        end
        (asked w prompt).

(** Two backends for running the program: one that answers every prompt
    with the same quiz text, one that is out of quota.  Clock and UUID
    generator count up. *)
Definition backend_up : Environment :=
  {| generate_content := fun _ _ => Returned ("Question 1: ..." ++ nl ++ "Answer: B");
     utcnow_at := N.of_nat;
     uuid4_at := N.of_nat |}.

Definition backend_down : Environment :=
  {| generate_content := fun _ _ => Raised (Exception "429 quota exceeded");
     utcnow_at := N.of_nat;
     uuid4_at := N.of_nat |}.

(** Whether an envelope is a chat message for [destination]. *)
Definition chat_to (destination : string) (e : string * Envelope) : Prop :=
  exists m, e = (destination, Chat m).

(** ** The direct message handlers *)

(** The request and response models of the direct handlers, lines 32-45. *)
Module CurriculumRequest.
Record t : Type := { topic : string }.
End CurriculumRequest.

Module SocraticRequest.
Record t : Type := { concept : string }.
End SocraticRequest.

Module QuizRequest.
Record t : Type := { topic : string }.
End QuizRequest.

Module ProjectRequest.
Record t : Type := { topic : string }.
End ProjectRequest.

Record AIResponse : Type := { response : string }.

(** The direct handlers send [AIResponse] models; what they hand to
    [ctx.send] is recorded, oldest first, beside the world of the chat
    protocol. *)
Record DirectWorld : Type := {
  chat_world : World;
  responses : list (string * AIResponse)
}.

(** A generator run by a direct handler, and [ctx.send] of the
    [AIResponse] that carries its text, lines 291-292 and alike. *)
Definition send_generated (generated : M string) (sender : string)
    (dw : DirectWorld) : outcome unit * DirectWorld :=
  match generated (chat_world dw) with
  | (Returned response_text, w') =>
      (Returned tt,
       {| chat_world := w';
          responses := (responses dw ++ [(sender, {| response := response_text |})])%list |})
  | (Raised e, w') =>
      (Raised e, {| chat_world := w'; responses := responses dw |})
  end.

Section Direct.

Variable env : Environment.

(** [handle_curriculum_direct(ctx, sender, msg)], lines 289-292. *)
Definition handle_curriculum_direct (sender : string) (msg : CurriculumRequest.t)
    : DirectWorld -> outcome unit * DirectWorld :=
  send_generated (generate_curriculum env (CurriculumRequest.topic msg)) sender.

(** [handle_socratic_direct(ctx, sender, msg)], lines 294-297. *)
Definition handle_socratic_direct (sender : string) (msg : SocraticRequest.t)
    : DirectWorld -> outcome unit * DirectWorld :=
  send_generated (generate_socratic_questions env (SocraticRequest.concept msg)) sender.

(** [handle_quiz_direct(ctx, sender, msg)], lines 299-302. *)
Definition handle_quiz_direct (sender : string) (msg : QuizRequest.t)
    : DirectWorld -> outcome unit * DirectWorld :=
  send_generated (generate_quiz env (QuizRequest.topic msg)) sender.

(** [handle_project_direct(ctx, sender, msg)], lines 304-307. *)
Definition handle_project_direct (sender : string) (msg : ProjectRequest.t)
    : DirectWorld -> outcome unit * DirectWorld :=
  send_generated (generate_project env (ProjectRequest.topic msg)) sender.

End Direct.

(** ** What the handler does with an item *)

(** The prompt that the dispatch of [handle_message], lines 234-266, hands
    to the backend for the text of an item: the prompt of the command's
    generator, none for [/help], the general prompt otherwise. *)
Definition backend_prompt (item_text : string) : option string :=
  let (command, content) := parse_chat_command item_text in
  match command, content with
  | curriculum, Some (String _ _ as topic) => Some (curriculum_prompt topic)
  | socratic, Some (String _ _ as concept) => Some (socratic_prompt concept)
  | quiz, Some (String _ _ as topic) => Some (quiz_prompt topic)
  | project, Some (String _ _ as topic) => Some (project_prompt topic)
  | help, _ => None
  | _, _ => Some (general_prompt item_text)
  end.

(** The prompts that an item of a message sends to the backend. *)
Definition prompts_of (item : AgentContent) : list string :=
  match item with
  | TextContent text =>
      match backend_prompt text with
      | Some prompt => [prompt]
      | None => []
      end
  | _ => []
  end.

(** Whether an item is a text, and whether its text, if any, is ASCII. *)
Definition is_text (item : AgentContent) : bool :=
  match item with
  | TextContent _ => true
  | _ => false
  end.

Definition ascii_item (item : AgentContent) : bool :=
  match item with
  | TextContent text => ascii_text text
  | _ => true
  end.

(** Whether an item is a text that is not a [/help] request. *)
Definition asks_backend (item : AgentContent) : bool :=
  match item with
  | TextContent text => negb (Py.startswith "/help" (Py.lower (Py.strip text)))
  | _ => false
  end.

(** The shape of the chat message that answers an item. *)
Definition reply_to (item : AgentContent) (m : ChatMessage) : Prop :=
  match item with
  | StartSessionContent => content m = [TextContent welcome_text]
  | TextContent _ => exists response_text, content m = [TextContent response_text]
  | EndSessionContent => content m = [TextContent farewell_text; EndSessionContent]
  | OtherContent => False
  end.

(** The envelope of a chat message for [destination]. *)
Definition chat_envelope (destination : string) (m : ChatMessage) : string * Envelope :=
  (destination, Chat m).

(** What handling [items] from world [w] comes to: the world [w'] reached
    and the chat messages [ms] sent on the way.  The messages go to the
    sender after what was in the outbox, one per item that gets a reply, in
    the order of the items and each of the shape of its item; their ids and
    timestamps are the successive draws and readings; the backend gets the
    prompts of the items, in order; one line is logged per item. *)
Definition handled (env : Environment) (sender : string) (items : list AgentContent)
    (w w' : World) (ms : list ChatMessage) : Prop :=
  outbox w' = (outbox w ++ map (chat_envelope sender) ms)%list
  /\ Forall2 reply_to (filter replied items) ms
  /\ map msg_id ms = map (uuid4_at env) (seq (uuid_draws w) (List.length ms))
  /\ map timestamp ms = map (utcnow_at env) (seq (clock_reads w) (List.length ms))
  /\ uuid_draws w' = uuid_draws w + List.length ms
  /\ clock_reads w' = clock_reads w + List.length ms
  /\ prompts w' = (prompts w ++ flat_map prompts_of items)%list
  /\ List.length (logged w') = List.length (logged w) + List.length items.

(** The world in which the items of a message are handled: the line of
    the message is logged and its acknowledgement sent, lines 207-216. *)
Definition acknowledged (env : Environment) (sender : string) (w : World)
    (msg : ChatMessage) : World :=
  posted (clock_read (noted w ("📨 Received message from " ++ sender)))
    sender
    (Acknowledgement {| ack_timestamp := utcnow_at env (clock_reads w);
                        acknowledged_msg_id := msg_id msg |}).

(** A backend that fails on its first call and answers from then on. *)
Definition backend_flaky : Environment :=
  {| generate_content := fun n _ =>
       match n with
       | O => Raised (Exception "503 unavailable")
       | S _ => Returned "Recursion is a function calling itself."
       end;
     utcnow_at := N.of_nat;
     uuid4_at := N.of_nat |}.

(** The world of the direct handlers before anything has happened. *)
Definition initial_direct_world : DirectWorld :=
  {| chat_world := initial_world; responses := [] |}.

(** * Properties *)

(** ** Strings *)

Section StringFacts.

Lemma append_nil_r (s : string) : s ++ EmptyString = s.
Proof. induction s as [|c s IH]; simpl; [reflexivity | now rewrite IH]. Qed.

Lemma append_assoc (a b c : string) : (a ++ b) ++ c = a ++ b ++ c.
Proof. induction a as [|x a IH]; simpl; [reflexivity | now rewrite IH]. Qed.

Lemma isspace_lower_char (c : ascii) : Py.isspace (Py.lower_char c) = Py.isspace c.
Proof. destruct c as [[] [] [] [] [] [] [] []]; reflexivity. Qed.

Lemma lower_app (a b : string) : Py.lower (a ++ b) = Py.lower a ++ Py.lower b.
Proof. induction a as [|x a IH]; simpl; [reflexivity | now rewrite IH]. Qed.

Lemma lstrip_lower (s : string) : Py.lstrip (Py.lower s) = Py.lower (Py.lstrip s).
Proof.
  induction s as [|c s IH]; simpl; [reflexivity|].
  rewrite isspace_lower_char. destruct (Py.isspace c); [exact IH | reflexivity].
Qed.

Lemma rstrip_lower (s : string) : Py.rstrip (Py.lower s) = Py.lower (Py.rstrip s).
Proof.
  induction s as [|c s IH]; simpl; [reflexivity|].
  rewrite IH, isspace_lower_char.
  destruct (Py.rstrip s); simpl; [destruct (Py.isspace c); reflexivity | reflexivity].
Qed.

Lemma strip_lower (s : string) : Py.strip (Py.lower s) = Py.lower (Py.strip s).
Proof. unfold Py.strip. now rewrite lstrip_lower, rstrip_lower. Qed.

(** [lstrip] drops a blank prefix, [rstrip] a blank suffix. *)
Lemma lstrip_split (s : string) :
  exists ws, blank ws = true /\ s = ws ++ Py.lstrip s.
Proof.
  induction s as [|c s [ws [Hb Hs]]].
  - exists EmptyString. split; reflexivity.
  - simpl. destruct (Py.isspace c) eqn:Hc.
    + exists (String c ws). simpl. rewrite Hc, Hb. split; [reflexivity | now rewrite <- Hs].
    + exists EmptyString. split; reflexivity.
Qed.

Lemma rstrip_blank (s : string) : blank s = true -> Py.rstrip s = EmptyString.
Proof.
  induction s as [|c s IH]; simpl; [reflexivity|].
  intros H. apply andb_true_iff in H as [Hc Hs]. now rewrite (IH Hs), Hc.
Qed.

Lemma rstrip_empty_blank (s : string) : Py.rstrip s = EmptyString -> blank s = true.
Proof.
  induction s as [|c s IH]; simpl; [reflexivity|].
  destruct (Py.rstrip s); [|discriminate].
  destruct (Py.isspace c); [|discriminate]. intros _. now rewrite IH.
Qed.

Lemma rstrip_split (s : string) :
  exists ws, blank ws = true /\ s = Py.rstrip s ++ ws.
Proof.
  induction s as [|c s [ws [Hb Hs]]].
  - exists EmptyString. split; reflexivity.
  - simpl. destruct (Py.rstrip s) eqn:Hr.
    + destruct (Py.isspace c) eqn:Hc.
      * exists (String c s). simpl. rewrite Hc.
        split; [now apply rstrip_empty_blank | reflexivity].
      * exists ws. split; [exact Hb|]. simpl. now rewrite Hs at 1.
    + exists ws. split; [exact Hb|]. simpl. now rewrite Hs at 1.
Qed.

Lemma lstrip_blank_app (ws s : string) :
  blank ws = true -> Py.lstrip (ws ++ s) = Py.lstrip s.
Proof.
  induction ws as [|c ws IH]; simpl; [reflexivity|].
  intros H. apply andb_true_iff in H as [Hc Hs]. rewrite Hc. now apply IH.
Qed.

Lemma rstrip_app (a b : string) :
  Py.rstrip (a ++ b) =
  match Py.rstrip b with
  | EmptyString => Py.rstrip a
  | String _ _ as r => a ++ r
  end.
Proof.
  induction a as [|c a IH]; simpl.
  - destruct (Py.rstrip b); reflexivity.
  - rewrite IH. destruct (Py.rstrip b); [reflexivity | destruct a; reflexivity].
Qed.

Lemma rstrip_head (c : ascii) (s : string) :
  Py.isspace c = false -> exists r, Py.rstrip (String c s) = String c r.
Proof.
  intros Hc. simpl. destruct (Py.rstrip s) as [|d r].
  - rewrite Hc. now exists EmptyString.
  - now exists (String d r).
Qed.

(** Stripping the two ends commutes. *)
Lemma rstrip_lstrip (s : string) : Py.rstrip (Py.lstrip s) = Py.lstrip (Py.rstrip s).
Proof.
  induction s as [|c s IH]; [reflexivity|].
  destruct (Py.isspace c) eqn:Hc.
  - simpl Py.lstrip at 1. rewrite Hc, IH. simpl.
    destruct (Py.rstrip s) eqn:Hr.
    + now rewrite Hc.
    + simpl. now rewrite Hc.
  - simpl Py.lstrip at 1. rewrite Hc.
    destruct (rstrip_head c s Hc) as [r Hr]. rewrite Hr. simpl. now rewrite Hc.
Qed.

Lemma rstrip_idem (s : string) : Py.rstrip (Py.rstrip s) = Py.rstrip s.
Proof.
  induction s as [|c s IH]; [reflexivity|].
  simpl. destruct (Py.rstrip s) as [|d r] eqn:Hr.
  - destruct (Py.isspace c) eqn:Hc; simpl; [reflexivity | now rewrite Hc].
  - change (Py.rstrip (String c (String d r)) = String c (String d r)).
    simpl Py.rstrip at 1. simpl in IH. rewrite IH. reflexivity.
Qed.

Lemma lstrip_idem (s : string) : Py.lstrip (Py.lstrip s) = Py.lstrip s.
Proof.
  induction s as [|c s IH]; [reflexivity|].
  simpl. destruct (Py.isspace c) eqn:Hc; [exact IH | simpl; now rewrite Hc].
Qed.

Lemma strip_idem (s : string) : Py.strip (Py.strip s) = Py.strip s.
Proof.
  unfold Py.strip.
  rewrite <- (rstrip_lstrip (Py.lstrip s)), lstrip_idem, rstrip_idem. reflexivity.
Qed.

End StringFacts.

(** ** Prefixes, occurrences and replacement *)

Section Occurrences.

Lemma startswith_app (p s : string) : Py.startswith p (p ++ s) = true.
Proof.
  induction p as [|c p IH]; simpl; [reflexivity|].
  now rewrite Ascii.eqb_refl, IH.
Qed.

Lemma startswith_split (p s : string) :
  Py.startswith p s = true -> exists r, s = p ++ r.
Proof.
  revert s. induction p as [|c p IH]; intros s H.
  - now exists s.
  - destruct s as [|d s]; simpl in H; [discriminate|].
    apply andb_true_iff in H as [Hc Hp]. apply Ascii.eqb_eq in Hc. subst d.
    destruct (IH s Hp) as [r Hr]. exists r. simpl. now rewrite <- Hr.
Qed.

Lemma startswith_app_l (p a b : string) :
  Py.startswith p a = true -> Py.startswith p (a ++ b) = true.
Proof.
  intros H. destruct (startswith_split p a H) as [r Hr]. subst a.
  rewrite append_assoc. apply startswith_app.
Qed.

Lemma contains_suffix (sub a s : string) :
  Py.contains sub s = true -> Py.contains sub (a ++ s) = true.
Proof.
  intros H. induction a as [|c a IH]; simpl; [exact H|].
  rewrite IH. apply orb_true_r.
Qed.

Lemma contains_prefix (sub s b : string) :
  Py.contains sub s = true -> Py.contains sub (s ++ b) = true.
Proof.
  induction s as [|c s IH]; intros H.
  - simpl in H. rewrite orb_false_r in H.
    destruct sub; [destruct b; reflexivity | discriminate].
  - simpl in H. apply orb_true_iff in H as [H|H].
    + change (Py.contains sub (String c s ++ b)) with
        (Py.startswith sub (String c s ++ b) || Py.contains sub (s ++ b)).
      now rewrite (startswith_app_l _ _ b H).
    + change (Py.contains sub (String c s ++ b)) with
        (Py.startswith sub (String c s ++ b) || Py.contains sub (s ++ b)).
      rewrite (IH H). apply orb_true_r.
Qed.

(** Passing over the rest of a matched occurrence. *)
Lemma replace_scan_skip (old new x s : string) :
  Py.replace_scan old new (String.length x) (x ++ s) = Py.replace_scan old new 0 s.
Proof.
  induction x as [|c x IH]; simpl.
  - destruct s; reflexivity.
  - exact IH.
Qed.

(** A leading occurrence is replaced and the scan goes on behind it. *)
Lemma replace_leading (old new s : string) :
  old <> EmptyString ->
  Py.replace old new (old ++ s) = new ++ Py.replace old new s.
Proof.
  destruct old as [|h o]; [congruence|]. intros _.
  unfold Py.replace.
  change (String h o ++ s) with (String h (o ++ s)).
  unfold Py.replace_scan at 1; fold Py.replace_scan.
  change (String h (o ++ s)) with (String h o ++ s).
  rewrite startswith_app.
  replace (String.length (String h o) - 1) with (String.length o) by (simpl; lia).
  now rewrite replace_scan_skip.
Qed.

(** Where there is no occurrence, nothing changes. *)
Lemma replace_absent (old new s : string) :
  old <> EmptyString -> Py.contains old s = false -> Py.replace old new s = s.
Proof.
  destruct old as [|h o]; [congruence|]. intros _.
  unfold Py.replace. induction s as [|c s IH]; intros H; [reflexivity|].
  simpl in H. apply orb_false_iff in H as [H1 H2].
  unfold Py.replace_scan; fold Py.replace_scan.
  simpl Py.startswith. rewrite H1. now rewrite (IH H2).
Qed.

(** Text without the first character of [old] is passed over unchanged. *)
Lemma replace_pass (h : ascii) (o new a s : string) :
  Py.contains (String h EmptyString) a = false ->
  Py.replace (String h o) new (a ++ s) = a ++ Py.replace (String h o) new s.
Proof.
  unfold Py.replace. induction a as [|c a IH]; intros H; [reflexivity|].
  simpl in H. apply orb_false_iff in H as [H1 H2].
  rewrite andb_true_r in H1.
  change (String c a ++ s) with (String c (a ++ s)).
  unfold Py.replace_scan; fold Py.replace_scan.
  simpl Py.startswith. rewrite H1. simpl. now rewrite (IH H2).
Qed.

Lemma blank_no_slash (ws : string) :
  blank ws = true -> Py.contains "/" ws = false.
Proof.
  induction ws as [|c ws IH]; intros H; [reflexivity|].
  simpl in H. apply andb_true_iff in H as [Hc Hs].
  cbn [Py.contains Py.startswith]. rewrite (IH Hs), andb_true_r, orb_false_r.
  apply Ascii.eqb_neq. intros <-. discriminate.
Qed.

End Occurrences.

(** ** The parser *)

(** The members of [command_prefixes], one at a time. *)
Lemma command_prefixes_cases (P : string) (c : command_type) :
  In (P, c) command_prefixes ->
  (P, c) = ("/curriculum ", curriculum) \/ (P, c) = ("/socratic ", socratic) \/
  (P, c) = ("/quiz ", quiz) \/ (P, c) = ("/project ", project).
Proof.
  simpl. intros [H|[H|[H|[H|[]]]]]; rewrite <- H; auto.
Qed.

(** Settles every [startswith] test of a literal prefix against a text
    whose beginning is a literal. *)
Ltac settle_prefix_tests :=
  repeat match goal with
  | |- context [Py.startswith ?p ?s] =>
      first [ change (Py.startswith p s) with true
            | change (Py.startswith p s) with false ]
  end.

(** Takes the members of [command_prefixes] one at a time. *)
Ltac each_command H :=
  apply command_prefixes_cases in H;
  destruct H as [H|[H|[H|H]]]; inversion H; subst; clear H.

Section Parser.

Lemma parse_normal_form (P : string) (c : command_type) (text r : string) :
  In (P, c) command_prefixes ->
  Py.lower (Py.strip text) = P ++ r ->
  parse_chat_command text = (c, Some (Py.strip (Py.replace P EmptyString r))).
Proof.
  intros HP Hn. unfold parse_chat_command. rewrite Hn.
  each_command HP; rewrite replace_leading by discriminate;
    settle_prefix_tests; reflexivity.
Qed.

Lemma parse_unmatched (text : string) :
  matches_command (Py.lower (Py.strip text)) = false ->
  parse_chat_command text = (general, Some (Py.lower (Py.strip text))).
Proof.
  unfold matches_command, parse_chat_command. intros H.
  repeat (apply orb_false_iff in H; destruct H as [H ?]).
  repeat match goal with E : _ = false |- _ => rewrite E; clear E end.
  reflexivity.
Qed.

Lemma parse_help (text : string) :
  Py.startswith "/help" (Py.lower (Py.strip text)) = true ->
  parse_chat_command text = (help, None).
Proof.
  intros H. destruct (startswith_split _ _ H) as [r Hr].
  unfold parse_chat_command. rewrite Hr. settle_prefix_tests. reflexivity.
Qed.

(** A command in front of an argument that is not blank: the normalized
    text. *)
Lemma normalize_prefix_argument (P : string) (c : command_type) (arg : string) :
  In (P, c) command_prefixes ->
  Py.strip arg <> EmptyString ->
  Py.lower (Py.strip (P ++ arg)) = P ++ Py.lower (Py.rstrip arg).
Proof.
  intros HP Harg.
  assert (Hr : Py.rstrip arg <> EmptyString).
  { intros E. apply Harg. unfold Py.strip. now rewrite rstrip_lstrip, E. }
  unfold Py.strip.
  assert (Hl : Py.lstrip (P ++ arg) = P ++ arg) by (each_command HP; reflexivity).
  rewrite Hl, rstrip_app.
  destruct (Py.rstrip arg) as [|d r]; [congruence|].
  rewrite lower_app. each_command HP; reflexivity.
Qed.

(** A command in front of a blank argument: the normalized text is the
    command word alone. *)
Lemma normalize_prefix_blank (P : string) (c : command_type) (arg : string) :
  In (P, c) command_prefixes ->
  Py.strip arg = EmptyString ->
  Py.lower (Py.strip (P ++ arg)) = Py.rstrip P.
Proof.
  intros HP Harg.
  assert (Hr : Py.rstrip arg = EmptyString).
  { destruct (lstrip_split arg) as [ws [Hb Hs]].
    destruct (rstrip_split (Py.lstrip arg)) as [ws' [Hb' Hs']].
    unfold Py.strip in Harg. rewrite Harg in Hs'. simpl in Hs'.
    apply rstrip_blank. rewrite Hs, Hs'.
    clear - Hb Hb'. induction ws as [|x ws IH]; simpl; [exact Hb'|].
    simpl in Hb. apply andb_true_iff in Hb as [Hx Hws]. now rewrite Hx, IH. }
  unfold Py.strip.
  assert (Hl : Py.lstrip (P ++ arg) = P ++ arg) by (each_command HP; reflexivity).
  rewrite Hl, rstrip_app, Hr.
  each_command HP; reflexivity.
Qed.

(** A blank beginning of the text does not change the content that is cut
    out of it: no occurrence of a command starts in it, and the final strip
    removes it. *)
Lemma strip_replace_lstrip (P : string) (c : command_type) (s : string) :
  In (P, c) command_prefixes ->
  Py.strip (Py.replace P EmptyString s) =
  Py.strip (Py.replace P EmptyString (Py.lstrip s)).
Proof.
  intros HP. destruct (lstrip_split s) as [ws [Hb Hs]].
  rewrite Hs at 1.
  assert (E : Py.replace P EmptyString (ws ++ Py.lstrip s) =
              ws ++ Py.replace P EmptyString (Py.lstrip s)).
  { each_command HP; apply replace_pass; now apply blank_no_slash. }
  rewrite E. unfold Py.strip. now rewrite lstrip_blank_app.
Qed.

Lemma contains_strip (P s : string) :
  Py.contains P (Py.strip s) = true -> Py.contains P s = true.
Proof.
  intros H. destruct (lstrip_split s) as [ws [_ Hs]].
  destruct (rstrip_split (Py.lstrip s)) as [ws' [_ Hs']].
  rewrite Hs, Hs'. apply contains_suffix, contains_prefix. exact H.
Qed.

End Parser.

(** ** The content of a command is never empty *)

Section Content.

Lemma last_char_unique (p q : string) (x y : ascii) :
  p ++ String x EmptyString = q ++ String y EmptyString -> x = y.
Proof.
  revert q. induction p as [|a p IH]; intros [|b q] H; simpl in H.
  - now inversion H.
  - inversion H as [[Ha Hq]]. destruct q; discriminate.
  - inversion H as [[Ha Hp]]. destruct p; discriminate.
  - inversion H as [[Ha Hpq]]. exact (IH q Hpq).
Qed.

Lemma startswith_empty (p : string) :
  Py.startswith p EmptyString = true -> p = EmptyString.
Proof. destruct p; [reflexivity | discriminate]. Qed.

(** What is left of a text that is its own [rstrip] when its first
    character is taken off. *)
Lemma rstrip_fixed_tail (x : ascii) (s : string) :
  Py.rstrip (String x s) = String x s ->
  (s = EmptyString /\ Py.isspace x = false) \/
  (s <> EmptyString /\ Py.rstrip s = s).
Proof.
  simpl. destruct (Py.rstrip s) as [|d r] eqn:Hr.
  - destruct (Py.isspace x); [discriminate|].
    intros H. inversion H. now left.
  - intros H. inversion H as [Hs]. right. split; [discriminate | reflexivity].
Qed.

(** The scan of [replace] never takes the last character of a text that
    ends in a character other than a space, when [old] ends in a space:
    the result is not blank.  [skip] characters of the text are the end of
    an occurrence of [old]. *)
Lemma replace_scan_keeps_end (old0 s : string) :
  forall skip p1 p2,
    old0 ++ " " = p1 ++ p2 ->
    String.length p2 = skip ->
    Py.startswith p2 s = true ->
    s <> EmptyString ->
    Py.rstrip s = s ->
    blank (Py.replace_scan (old0 ++ " ") EmptyString skip s) = false.
Proof.
  induction s as [|x s IH]; intros skip p1 p2 Hold Hlen Hpre Hne Hfix;
    [congruence|].
  assert (Hx : s = EmptyString -> Py.isspace x = false).
  { intros ->. destruct (rstrip_fixed_tail x EmptyString Hfix) as [[_ H]|[H _]];
      [exact H | congruence]. }
  assert (Hend : forall q, old0 ++ " " = q ++ String x EmptyString -> s <> EmptyString).
  { intros q Hq Hs. specialize (Hx Hs).
    symmetry in Hq. apply last_char_unique in Hq. subst x. discriminate. }
  assert (Htail : s <> EmptyString -> Py.rstrip s = s).
  { intros Hs. destruct (rstrip_fixed_tail x s Hfix) as [[H _]|[_ H]];
      [congruence | exact H]. }
  destruct skip as [|k].
  - unfold Py.replace_scan; fold Py.replace_scan.
    destruct (Py.startswith (old0 ++ " ") (String x s)) eqn:Hst.
    + (* an occurrence starts here *)
      destruct (old0 ++ " ") as [|h o] eqn:Eold; [destruct old0; discriminate|].
      simpl in Hst. apply andb_true_iff in Hst as [Hh Ho].
      apply Ascii.eqb_eq in Hh. subst h.
      assert (Hs : s <> EmptyString).
      { intros Hs. subst s. apply startswith_empty in Ho. subst o.
        apply (Hend EmptyString); reflexivity. }
      simpl. rewrite Nat.sub_0_r.
      apply (IH (String.length o) (String x EmptyString) o);
        [reflexivity | reflexivity | exact Ho | exact Hs | exact (Htail Hs)].
    + (* the character is kept *)
      simpl. destruct s as [|y s'].
      * now rewrite (Hx eq_refl).
      * rewrite (IH 0 (old0 ++ " ") EmptyString);
          [apply andb_false_r | now rewrite append_nil_r | reflexivity
          | reflexivity | discriminate | apply Htail; discriminate].
  - (* inside an occurrence *)
    destruct p2 as [|y p2]; [discriminate|].
    simpl in Hpre. apply andb_true_iff in Hpre as [Hy Hp2].
    apply Ascii.eqb_eq in Hy. subst y.
    assert (Hold' : old0 ++ " " = (p1 ++ String x EmptyString) ++ p2).
    { rewrite Hold, append_assoc. reflexivity. }
    assert (Hs : s <> EmptyString).
    { intros Hs. subst s. apply startswith_empty in Hp2. subst p2.
      apply (Hend p1); [now rewrite Hold | reflexivity]. }
    simpl.
    apply (IH k (p1 ++ String x EmptyString) p2);
      [exact Hold' | simpl in Hlen; lia | exact Hp2 | exact Hs | exact (Htail Hs)].
Qed.

Lemma blank_app (a b : string) : blank (a ++ b) = blank a && blank b.
Proof.
  induction a as [|x a IH]; simpl; [reflexivity|].
  now rewrite IH, andb_assoc.
Qed.

Lemma strip_empty_blank (s : string) : Py.strip s = EmptyString -> blank s = true.
Proof.
  unfold Py.strip. intros H. apply rstrip_empty_blank in H.
  destruct (lstrip_split s) as [ws [Hb Hs]].
  rewrite Hs, blank_app, Hb, H. reflexivity.
Qed.

(** The normalized text is its own [rstrip]. *)
Lemma normalized_rstrip (text : string) :
  Py.rstrip (Py.lower (Py.strip text)) = Py.lower (Py.strip text).
Proof.
  rewrite rstrip_lower. unfold Py.strip. now rewrite rstrip_idem.
Qed.

(** Whenever the parser returns one of the four commands, the content is a
    non-empty string: the test [and content] of the dispatch never fails,
    and a command without argument is already tagged general by the
    parser. *)
Lemma command_content_nonempty (P : string) (c : command_type) (text : string) :
  In (P, c) command_prefixes ->
  Py.startswith P (Py.lower (Py.strip text)) = true ->
  exists x topic, parse_chat_command text = (c, Some (String x topic)).
Proof.
  intros HP Hst.
  destruct (startswith_split _ _ Hst) as [r Hr].
  rewrite (parse_normal_form P c text r HP Hr).
  assert (Hb : blank (Py.replace P EmptyString (P ++ r)) = false).
  { rewrite <- Hr.
    assert (Hne : Py.lower (Py.strip text) <> EmptyString).
    { rewrite Hr. each_command HP; discriminate. }
    pose proof (normalized_rstrip text) as Hfix.
    each_command HP;
      [ apply (replace_scan_keeps_end "/curriculum" _ 0
                 "/curriculum " EmptyString)
      | apply (replace_scan_keeps_end "/socratic" _ 0
                 "/socratic " EmptyString)
      | apply (replace_scan_keeps_end "/quiz" _ 0
                 "/quiz " EmptyString)
      | apply (replace_scan_keeps_end "/project" _ 0
                 "/project " EmptyString) ];
      auto. }
  rewrite replace_leading in Hb by (each_command HP; discriminate).
  simpl in Hb.
  destruct (Py.strip (Py.replace P EmptyString r)) as [|x topic] eqn:E.
  - apply strip_empty_blank in E. congruence.
  - now exists x, topic.
Qed.

End Content.

(** ** Claims about the parser *)

(** C7.  For a command prefix [P] and an ASCII input whose trimmed,
    lower-cased form starts with [P], the extracted argument is that form
    with the
    occurrences of [P] deleted, then trimmed; the deletion is the one of
    [str.replace], which takes out the leading occurrence and every later
    one as well, so an argument that contains [P] is altered, and which
    leaves a text without occurrence as it is. *)
Theorem parse_deletes_every_prefix_occurrence (P : string) (c : command_type) :
  In (P, c) command_prefixes ->
  (forall text,
     ascii_text text = true ->
     Py.startswith P (Py.lower (Py.strip text)) = true ->
     parse_chat_command text =
     (c, Some (Py.strip (Py.replace P EmptyString (Py.lower (Py.strip text))))))
  /\
  (forall a b,
     Py.contains "/" a = false ->
     Py.replace P EmptyString (P ++ a ++ P ++ b) = a ++ Py.replace P EmptyString b)
  /\
  (forall s,
     Py.contains P s = false ->
     Py.replace P EmptyString s = s).
Proof.
  intros HP. split; [|split].
  - intros text _ H. destruct (startswith_split _ _ H) as [r Hr].
    rewrite (parse_normal_form P c text r HP Hr), Hr.
    rewrite replace_leading by (each_command HP; discriminate).
    reflexivity.
  - intros a b Ha.
    rewrite replace_leading by (each_command HP; discriminate).
    simpl.
    assert (E : forall s, Py.replace P EmptyString (a ++ s) =
                          a ++ Py.replace P EmptyString s).
    { intros s. each_command HP; now apply replace_pass. }
    rewrite E, replace_leading by (each_command HP; discriminate).
    reflexivity.
  - intros s Hs. apply replace_absent; [each_command HP; discriminate | exact Hs].
Qed.

Lemma parse_deletes_every_prefix_occurrence_witness :
  parse_chat_command "/quiz python /quiz basics" = (quiz, Some "python basics")
  /\ Py.replace "/quiz " EmptyString ("/quiz " ++ "python " ++ "/quiz " ++ "basics")
     = "python " ++ Py.replace "/quiz " EmptyString "basics".
Proof.
  destruct (parse_deletes_every_prefix_occurrence "/quiz " quiz) as [H1 [H2 _]].
  - simpl. auto.
  - split.
    + rewrite (H1 "/quiz python /quiz basics"); reflexivity.
    + apply H2. reflexivity.
Defined.

(** C1, as the spec states it, fails: the argument comes back lower-cased. *)
Lemma parse_prefix_argument_counterexample :
  parse_chat_command ("/quiz " ++ "Python") = (quiz, Some "python")
  /\ parse_chat_command ("/quiz " ++ "Python") <> (quiz, Some (Py.strip "Python")).
Proof.
  split; [reflexivity | discriminate].
Qed.

(** C1, amended.  For a command prefix [P] and an ASCII argument that is
    not blank, parsing [P ++ arg] yields the tag of [P] and, as argument, [arg]
    trimmed and lower-cased, with the occurrences of [P] deleted and the
    result trimmed; when the lower-cased argument has no occurrence of [P],
    that is [arg] trimmed and lower-cased. *)
Theorem parse_prefix_argument (P : string) (c : command_type) (arg : string) :
  In (P, c) command_prefixes ->
  ascii_text arg = true ->
  Py.strip arg <> EmptyString ->
  parse_chat_command (P ++ arg) =
  (c, Some (Py.strip (Py.replace P EmptyString (Py.lower (Py.strip arg)))))
  /\
  (Py.contains P (Py.lower arg) = false ->
   parse_chat_command (P ++ arg) = (c, Some (Py.lower (Py.strip arg)))).
Proof.
  intros HP _ Harg.
  assert (Hparse : parse_chat_command (P ++ arg) =
    (c, Some (Py.strip (Py.replace P EmptyString (Py.lower (Py.strip arg)))))).
  { rewrite (parse_normal_form P c (P ++ arg) (Py.lower (Py.rstrip arg)) HP
               (normalize_prefix_argument P c arg HP Harg)).
    rewrite (strip_replace_lstrip P c _ HP).
    unfold Py.strip at 3. now rewrite lstrip_lower, rstrip_lstrip. }
  split; [exact Hparse|].
  intros Hno. rewrite Hparse.
  assert (Habs : Py.contains P (Py.lower (Py.strip arg)) = false).
  { destruct (Py.contains P (Py.lower (Py.strip arg))) eqn:E; [|reflexivity].
    rewrite <- strip_lower in E. apply contains_strip in E. congruence. }
  rewrite replace_absent by (first [exact Habs | each_command HP; discriminate]).
  now rewrite strip_lower, strip_idem.
Qed.

Lemma parse_prefix_argument_witness :
  parse_chat_command ("/curriculum " ++ " Machine Learning ") =
  (curriculum, Some "machine learning").
Proof.
  destruct (parse_prefix_argument "/curriculum " curriculum " Machine Learning ")
    as [_ H].
  - simpl. auto.
  - reflexivity.
  - discriminate.
  - rewrite H; reflexivity.
Defined.

(** C4, as the spec states it, fails: the text that comes back from the
    parser is trimmed and lower-cased. *)
Lemma parse_general_counterexample :
  matches_command (Py.lower (Py.strip " Hello ")) = false
  /\ parse_chat_command " Hello " = (general, Some "hello")
  /\ parse_chat_command " Hello " <> (general, Some " Hello ").
Proof.
  split; [reflexivity | split; [reflexivity | discriminate]].
Qed.

(** ** The responder *)

Section Responder.

Variable env : Environment.

(** A backend call inside [try]/[except] that renders the exception as
    text: it always returns, with the backend's text or the rendering. *)
Lemma guarded_call (prompt : string) (render : exn -> string) (w : World) :
  try_except (model_generate_content env prompt) (fun e => ret (render e)) w =
  (Returned match backend_answer env w prompt with
            | Returned text => text
            | Raised e => render e
            end,
   asked w prompt).
Proof.
  unfold try_except, model_generate_content, backend_answer, asked, ret.
  destruct (generate_content env (List.length (prompts w)) prompt); reflexivity.
Qed.

Lemma respond_cases (text : string) (w : World) :
  exists response w',
    respond env text w = (Returned response, w') /\ reply_case env w response w'.
Proof.
  unfold respond. destruct (parse_chat_command text) as [command content].
  destruct command; destruct content as [[|x topic]|];
    try (unfold general_reply, generate_curriculum, generate_socratic_questions,
           generate_quiz, generate_project;
         rewrite guarded_call; do 2 eexists; split;
         [reflexivity | apply reply_backend]);
    do 2 eexists; (split; [reflexivity | apply reply_static]).
Qed.

Lemma respond_keeps_outbox (text : string) (w : World) :
  outbox (snd (respond env text w)) = outbox w.
Proof.
  destruct (respond_cases text w) as [response [w' [E C]]]. rewrite E.
  destruct C; reflexivity.
Qed.

Lemma respond_on_general (text : string) (content : option string) :
  parse_chat_command text = (general, content) ->
  respond env text = general_reply env text.
Proof.
  intros E. unfold respond. rewrite E. destruct content; reflexivity.
Qed.

End Responder.

(** ** Claims about the responder *)

(** C2.  For every input text, the empty one and a bare command included,
    classifying it and producing the response returns a string: no
    exception leaves the responder, whatever the backend does. *)
Theorem respond_total (env : Environment) (text : string) (w : World) :
  exists response w', respond env text w = (Returned response, w').
Proof.
  destruct (respond_cases env text w) as [response [w' [E _]]].
  now exists response, w'.
Qed.

(** C3.  When the backend call fails, each of the four generators returns
    its own "Error generating ...: " text followed by the reason of the
    failure, and the general reply is one fixed apology, the same for
    every reason, which points to /help. *)
Theorem backend_failure_texts (env : Environment) (w : World) (e : exn) :
  (forall topic,
     backend_answer env w (curriculum_prompt topic) = Raised e ->
     fst (generate_curriculum env topic w) =
     Returned ("Error generating curriculum: " ++ str e))
  /\
  (forall concept,
     backend_answer env w (socratic_prompt concept) = Raised e ->
     fst (generate_socratic_questions env concept w) =
     Returned ("Error generating Socratic questions: " ++ str e))
  /\
  (forall topic,
     backend_answer env w (quiz_prompt topic) = Raised e ->
     fst (generate_quiz env topic w) =
     Returned ("Error generating quiz: " ++ str e))
  /\
  (forall topic,
     backend_answer env w (project_prompt topic) = Raised e ->
     fst (generate_project env topic w) =
     Returned ("Error generating project: " ++ str e))
  /\
  (forall item_text,
     backend_answer env w (general_prompt item_text) = Raised e ->
     fst (general_reply env item_text w) = Returned apology_text)
  /\
  Py.contains "/help" apology_text = true.
Proof.
  repeat match goal with |- _ /\ _ => split end;
    try (intros x H;
         unfold generate_curriculum, generate_socratic_questions, generate_quiz,
           generate_project, general_reply;
         rewrite guarded_call, H; reflexivity).
  reflexivity.
Qed.

(** C5.  The reply to /help is one constant string, whatever the backend
    and the world; producing it leaves the world as it was, so no backend
    call is made; and the string names the five commands. *)
Theorem help_is_static :
  (forall env text w,
     Py.startswith "/help" (Py.lower (Py.strip text)) = true ->
     respond env text w = (Returned get_help_text, w))
  /\ Py.contains "/curriculum" get_help_text = true
  /\ Py.contains "/socratic" get_help_text = true
  /\ Py.contains "/quiz" get_help_text = true
  /\ Py.contains "/project" get_help_text = true
  /\ Py.contains "/help" get_help_text = true.
Proof.
  split.
  - intros env text w H. unfold respond. rewrite (parse_help text H). reflexivity.
  - repeat split; vm_compute; reflexivity.
Qed.

(** C6.  A command prefix followed by an empty or blank argument
    normalizes to the command word alone, and a text whose normalized form
    is a command word alone is handled by the general branch: no generator
    is called and no usage message is produced. *)
Theorem bare_command_is_general (P : string) (c : command_type) :
  In (P, c) command_prefixes ->
  (forall arg,
     Py.strip arg = EmptyString ->
     Py.lower (Py.strip (P ++ arg)) = Py.rstrip P)
  /\
  (forall text,
     Py.lower (Py.strip text) = Py.rstrip P ->
     parse_chat_command text = (general, Some (Py.rstrip P))
     /\ forall env, respond env text = general_reply env text).
Proof.
  intros HP. split.
  - intros arg Harg. exact (normalize_prefix_blank P c arg HP Harg).
  - intros text Hn.
    assert (E : parse_chat_command text = (general, Some (Py.rstrip P))).
    { rewrite parse_unmatched; rewrite Hn; [reflexivity|].
      each_command HP; reflexivity. }
    split; [exact E|].
    intros env. exact (respond_on_general env text _ E).
Qed.

(** C4, amended.  For every ASCII input text that matches no command
    prefix the parser yields the general tag with the text trimmed and lower-cased;
    the handler takes the general branch, whose one backend call gets a
    prompt that embeds the text as it was received, untrimmed and in its
    own case. *)
Theorem parse_general (text : string) :
  ascii_text text = true ->
  matches_command (Py.lower (Py.strip text)) = false ->
  parse_chat_command text = (general, Some (Py.lower (Py.strip text)))
  /\ (forall env, respond env text = general_reply env text)
  /\ (forall env w,
        prompts (snd (respond env text w)) =
        (prompts w ++ [general_prompt text])%list)
  /\ (exists before after,
        forall item_text, general_prompt item_text = before ++ item_text ++ after).
Proof.
  intros _ H. pose proof (parse_unmatched text H) as E.
  split; [exact E|]. split; [|split].
  - intros env. exact (respond_on_general env text _ E).
  - intros env w. rewrite (respond_on_general env text _ E).
    unfold general_reply. rewrite guarded_call. reflexivity.
  - exists (nl ++
      "                You are a helpful AI tutor. The student said: " ++ dquote).
    eexists. intros item_text. unfold general_prompt.
    rewrite !append_assoc. reflexivity.
Qed.

(** C9.  When the backend call succeeds, each generator returns the
    backend's text as it is; so does the reply to [/quiz python basics]. *)
Theorem success_passes_through (env : Environment) (w : World) (answer : string) :
  (forall topic,
     backend_answer env w (curriculum_prompt topic) = Returned answer ->
     fst (generate_curriculum env topic w) = Returned answer)
  /\
  (forall concept,
     backend_answer env w (socratic_prompt concept) = Returned answer ->
     fst (generate_socratic_questions env concept w) = Returned answer)
  /\
  (forall topic,
     backend_answer env w (quiz_prompt topic) = Returned answer ->
     fst (generate_quiz env topic w) = Returned answer)
  /\
  (forall topic,
     backend_answer env w (project_prompt topic) = Returned answer ->
     fst (generate_project env topic w) = Returned answer)
  /\
  (backend_answer env w (quiz_prompt "python basics") = Returned answer ->
   fst (respond env "/quiz python basics" w) = Returned answer).
Proof.
  repeat match goal with |- _ /\ _ => split end;
    try (intros x H;
         unfold generate_curriculum, generate_socratic_questions, generate_quiz,
           generate_project;
         rewrite guarded_call, H; reflexivity).
  intros H.
  change (respond env "/quiz python basics") with (generate_quiz env "python basics").
  unfold generate_quiz. rewrite guarded_call, H. reflexivity.
Qed.

(** ** The chat handler *)

Section Handler.

Variable env : Environment.
Variable sender : string.

(** The reply depends on the world only through the number of backend
    calls made so far. *)
Lemma respond_result (text : string) (w w0 : World) :
  prompts w = prompts w0 ->
  fst (respond env text w) = fst (respond env text w0).
Proof.
  intros H. unfold respond. destruct (parse_chat_command text) as [command content].
  destruct command; destruct content as [[|x topic]|]; try reflexivity;
    unfold general_reply, generate_curriculum, generate_socratic_questions,
      generate_quiz, generate_project;
    rewrite !guarded_call; unfold backend_answer; rewrite H; reflexivity.
Qed.

(** A text item: one reply, which carries the response to the text. *)
Lemma handle_text (text : string) (w : World) :
  exists response m w',
    fst (respond env text w) = Returned response
    /\ handle_content env sender (TextContent text) w = (Returned tt, w')
    /\ outbox w' = (outbox w ++ [(sender, Chat m)])%list
    /\ content m = [TextContent response].
Proof.
  set (line := "💬 Text message from " ++ sender ++ ": " ++ text).
  destruct (respond_cases env text (noted w line)) as [response [w1 [E _]]].
  assert (Ho : outbox w1 = outbox w).
  { pose proof (respond_keeps_outbox env text (noted w line)) as K.
    rewrite E in K. exact K. }
  exists response. do 2 eexists. split; [|split; [|split]].
  - rewrite (respond_result text w (noted w line)) by reflexivity. now rewrite E.
  - unfold handle_content, bind, logger_info. fold line. rewrite E. reflexivity.
  - cbn [outbox posted uuid_drawn clock_read]. rewrite Ho. reflexivity.
  - reflexivity.
Qed.

(** A session start or a session end: one fixed message, no backend call. *)
Lemma handle_start (w : World) :
  exists m w',
    handle_content env sender StartSessionContent w = (Returned tt, w')
    /\ outbox w' = (outbox w ++ [(sender, Chat m)])%list
    /\ content m = [TextContent welcome_text]
    /\ prompts w' = prompts w.
Proof.
  do 2 eexists. split; [reflexivity|]. split; [|split]; reflexivity.
Qed.

Lemma handle_end (w : World) :
  exists m w',
    handle_content env sender EndSessionContent w = (Returned tt, w')
    /\ outbox w' = (outbox w ++ [(sender, Chat m)])%list
    /\ content m = [TextContent farewell_text; EndSessionContent]
    /\ prompts w' = prompts w.
Proof.
  do 2 eexists. split; [reflexivity|]. split; [|split]; reflexivity.
Qed.

(** Any item: the handler returns, and sends one chat message to the
    sender, or none for an unexpected item. *)
Lemma handle_content_sends (item : AgentContent) (w : World) :
  exists w' sent,
    handle_content env sender item w = (Returned tt, w')
    /\ outbox w' = (outbox w ++ sent)%list
    /\ List.length sent = (if replied item then 1 else 0)
    /\ Forall (chat_to sender) sent.
Proof.
  destruct item as [|text| |].
  - destruct (handle_start w) as [m [w' [E [O _]]]].
    exists w', [(sender, Chat m)]. repeat split; auto.
    constructor; [now exists m | constructor].
  - destruct (handle_text text w) as [response [m [w' [_ [E [O _]]]]]].
    exists w', [(sender, Chat m)]. repeat split; auto.
    constructor; [now exists m | constructor].
  - destruct (handle_end w) as [m [w' [E [O _]]]].
    exists w', [(sender, Chat m)]. repeat split; auto.
    constructor; [now exists m | constructor].
  - exists (noted w ("❓ Received unexpected content type from " ++ sender)), [].
    repeat split; [simpl; now rewrite app_nil_r | constructor].
Qed.

(** The loop over the items of a message. *)
Lemma for_each_content_sends (items : list AgentContent) (w : World) :
  exists w' sent,
    for_each (handle_content env sender) items w = (Returned tt, w')
    /\ outbox w' = (outbox w ++ sent)%list
    /\ List.length sent = List.length (filter replied items)
    /\ Forall (chat_to sender) sent.
Proof.
  revert w. induction items as [|item items IH]; intros w.
  - exists w, []. repeat split; [simpl; now rewrite app_nil_r | constructor].
  - destruct (handle_content_sends item w) as [w1 [sent1 [E1 [O1 [L1 F1]]]]].
    destruct (IH w1) as [w2 [sent2 [E2 [O2 [L2 F2]]]]].
    exists w2, (sent1 ++ sent2)%list. split; [|split; [|split]].
    + simpl. unfold bind. rewrite E1. exact E2.
    + rewrite O2, O1. now rewrite <- app_assoc.
    + rewrite length_app, L1, L2. simpl. destruct (replied item); reflexivity.
    + apply Forall_app. now split.
Qed.

End Handler.

(** ** Claims about the chat handler *)

(** C8.  Each text item of a message gets exactly one reply, the response
    to the one classification of its text; a session start and a session
    end get the fixed greeting and the fixed farewell, with no backend
    call; over a whole message the handler sends the acknowledgement and
    one chat message per item it knows. *)
Theorem one_reply_per_item (env : Environment) (sender : string) :
  (forall text w,
     exists response m w',
       fst (respond env text w) = Returned response
       /\ handle_content env sender (TextContent text) w = (Returned tt, w')
       /\ outbox w' = (outbox w ++ [(sender, Chat m)])%list
       /\ content m = [TextContent response])
  /\
  (forall w,
     exists m w',
       handle_content env sender StartSessionContent w = (Returned tt, w')
       /\ outbox w' = (outbox w ++ [(sender, Chat m)])%list
       /\ content m = [TextContent welcome_text]
       /\ prompts w' = prompts w)
  /\
  (forall w,
     exists m w',
       handle_content env sender EndSessionContent w = (Returned tt, w')
       /\ outbox w' = (outbox w ++ [(sender, Chat m)])%list
       /\ content m = [TextContent farewell_text; EndSessionContent]
       /\ prompts w' = prompts w)
  /\
  (forall msg w,
     exists w',
       handle_message env sender msg w = (Returned tt, w')
       /\ List.length (outbox w') =
          List.length (outbox w) + 1 + List.length (filter replied (content msg))).
Proof.
  split; [exact (handle_text env sender)|].
  split; [exact (handle_start env sender)|].
  split; [exact (handle_end env sender)|].
  intros msg w.
  set (w0 := posted (clock_read (noted w ("📨 Received message from " ++ sender)))
               sender
               (Acknowledgement
                  {| ack_timestamp := utcnow_at env (clock_reads w);
                     acknowledged_msg_id := msg_id msg |})).
  destruct (for_each_content_sends env sender (content msg) w0)
    as [w' [sent [E [O [L _]]]]].
  exists w'. split.
  - exact E.
  - rewrite O, length_app, L. unfold w0. simpl. rewrite length_app. simpl. lia.
Qed.

(** C10.  For every inbound message the handler first sends the sender an
    acknowledgement of that message's id, before any item is looked at and
    before any backend call; the items are processed from the world so
    reached, and whatever the backend does there the handler returns with
    the acknowledgement in the outbox, followed only by chat messages. *)
Theorem acknowledgement_first (env : Environment) (sender : string)
    (msg : ChatMessage) (w : World) :
  exists ack w_ack w' rest,
    acknowledged_msg_id ack = msg_id msg
    /\ outbox w_ack = (outbox w ++ [(sender, Acknowledgement ack)])%list
    /\ prompts w_ack = prompts w
    /\ handle_message env sender msg w =
       for_each (handle_content env sender) (content msg) w_ack
    /\ handle_message env sender msg w = (Returned tt, w')
    /\ outbox w' = (outbox w ++ (sender, Acknowledgement ack) :: rest)%list
    /\ Forall (chat_to sender) rest.
Proof.
  set (ack := {| ack_timestamp := utcnow_at env (clock_reads w);
                 acknowledged_msg_id := msg_id msg |}).
  set (w0 := posted (clock_read (noted w ("📨 Received message from " ++ sender)))
               sender (Acknowledgement ack)).
  destruct (for_each_content_sends env sender (content msg) w0)
    as [w' [rest [E [O [_ F]]]]].
  exists ack, w0, w', rest.
  repeat match goal with |- _ /\ _ => split end; try reflexivity.
  - exact E.
  - rewrite O. unfold w0. simpl. now rewrite <- app_assoc.
  - exact F.
Qed.

(** ** The claims at concrete inputs *)

Lemma backend_failure_texts_witness :
  fst (generate_curriculum backend_down "rust" initial_world) =
    Returned "Error generating curriculum: 429 quota exceeded"
  /\ fst (generate_socratic_questions backend_down "recursion" initial_world) =
    Returned "Error generating Socratic questions: 429 quota exceeded"
  /\ fst (generate_quiz backend_down "python basics" initial_world) =
    Returned "Error generating quiz: 429 quota exceeded"
  /\ fst (generate_project backend_down "web" initial_world) =
    Returned "Error generating project: 429 quota exceeded"
  /\ fst (general_reply backend_down "hello" initial_world) = Returned apology_text.
Proof.
  destruct (backend_failure_texts backend_down initial_world
              (Exception "429 quota exceeded"))
    as [Hc [Hs [Hq [Hp [Hg _]]]]].
  split; [apply (Hc "rust"); reflexivity|].
  split; [apply (Hs "recursion"); reflexivity|].
  split; [apply (Hq "python basics"); reflexivity|].
  split; [apply (Hp "web"); reflexivity|].
  apply (Hg "hello"); reflexivity.
Defined.

Lemma help_is_static_witness :
  respond backend_down " /HELP " initial_world = (Returned get_help_text, initial_world).
Proof.
  apply (proj1 help_is_static). reflexivity.
Defined.

Lemma bare_command_is_general_witness :
  Py.lower (Py.strip ("/quiz " ++ EmptyString)) = "/quiz"
  /\ parse_chat_command "/quiz" = (general, Some "/quiz")
  /\ respond backend_up "/quiz" = general_reply backend_up "/quiz".
Proof.
  destruct (bare_command_is_general "/quiz " quiz) as [H1 H2].
  - simpl. auto.
  - split; [apply (H1 EmptyString); reflexivity|].
    destruct (H2 "/quiz") as [Hp Hr]; [reflexivity|].
    split; [exact Hp | exact (Hr backend_up)].
Defined.

Lemma parse_general_witness :
  parse_chat_command "hello, can you help me learn Guitar?" =
    (general, Some "hello, can you help me learn guitar?")
  /\ prompts (snd (respond backend_up "hello, can you help me learn Guitar?"
                     initial_world)) =
     [general_prompt "hello, can you help me learn Guitar?"].
Proof.
  destruct (parse_general "hello, can you help me learn Guitar?") as [Hp [_ [Hq _]]].
  - reflexivity.
  - reflexivity.
  - split; [exact Hp | exact (Hq backend_up initial_world)].
Defined.

Lemma success_passes_through_witness :
  fst (respond backend_up "/quiz python basics" initial_world) =
  Returned ("Question 1: ..." ++ nl ++ "Answer: B").
Proof.
  destruct (success_passes_through backend_up initial_world
              ("Question 1: ..." ++ nl ++ "Answer: B"))
    as [_ [_ [_ [_ H]]]].
  apply H. reflexivity.
Defined.

(** * Further properties of the parser *)

Section ParserFacts.

Lemma lower_char_idem (c : ascii) : Py.lower_char (Py.lower_char c) = Py.lower_char c.
Proof. destruct c as [[] [] [] [] [] [] [] []]; reflexivity. Qed.

Lemma lower_idem (s : string) : Py.lower (Py.lower s) = Py.lower s.
Proof.
  induction s as [|c s IH]; simpl; [reflexivity|].
  now rewrite lower_char_idem, IH.
Qed.

(** Blank margins do not survive [strip]. *)
Lemma strip_margins (ws1 ws2 s : string) :
  blank ws1 = true -> blank ws2 = true ->
  Py.strip (ws1 ++ s ++ ws2) = Py.strip s.
Proof.
  intros H1 H2. unfold Py.strip.
  rewrite (lstrip_blank_app ws1 _ H1), !rstrip_lstrip, rstrip_app.
  now rewrite (rstrip_blank ws2 H2).
Qed.

(** The three ways in which the parser answers. *)
Lemma parse_cases (text : string) :
  (exists P c r,
     In (P, c) command_prefixes
     /\ Py.lower (Py.strip text) = P ++ r
     /\ parse_chat_command text = (c, Some (Py.strip (Py.replace P EmptyString r))))
  \/ (exists r,
        Py.lower (Py.strip text) = "/help" ++ r
        /\ parse_chat_command text = (help, None))
  \/ (matches_command (Py.lower (Py.strip text)) = false
      /\ parse_chat_command text = (general, Some (Py.lower (Py.strip text)))).
Proof.
  destruct (matches_command (Py.lower (Py.strip text))) eqn:Hm.
  - unfold matches_command in Hm.
    repeat (apply orb_true_iff in Hm; destruct Hm as [Hm|Hm]).
    + left. destruct (startswith_split _ _ Hm) as [r Hr].
      exists "/curriculum ", curriculum, r.
      split; [simpl; auto | split; [exact Hr|]].
      apply parse_normal_form; [simpl; auto | exact Hr].
    + left. destruct (startswith_split _ _ Hm) as [r Hr].
      exists "/socratic ", socratic, r.
      split; [simpl; auto | split; [exact Hr|]].
      apply parse_normal_form; [simpl; auto | exact Hr].
    + left. destruct (startswith_split _ _ Hm) as [r Hr].
      exists "/quiz ", quiz, r.
      split; [simpl; auto | split; [exact Hr|]].
      apply parse_normal_form; [simpl; auto | exact Hr].
    + left. destruct (startswith_split _ _ Hm) as [r Hr].
      exists "/project ", project, r.
      split; [simpl; auto 6 | split; [exact Hr|]].
      apply parse_normal_form; [simpl; auto 6 | exact Hr].
    + right. left. destruct (startswith_split _ _ Hm) as [r Hr].
      exists r. split; [exact Hr | now apply parse_help].
  - right. right. split; [reflexivity | now apply parse_unmatched].
Qed.

Lemma matches_command_false (t : string) :
  matches_command t = false ->
  Py.startswith "/help" t = false
  /\ forall P c, In (P, c) command_prefixes -> Py.startswith P t = false.
Proof.
  unfold matches_command. intros H.
  repeat (apply orb_false_iff in H; destruct H as [H ?]).
  split; [assumption|]. intros P c HP. each_command HP; assumption.
Qed.

(** Lengths: none of the string methods of the parser adds a character. *)
Lemma length_lower (s : string) : String.length (Py.lower s) = String.length s.
Proof. induction s as [|c s IH]; simpl; [reflexivity | now rewrite IH]. Qed.

Lemma length_append (a b : string) :
  String.length (a ++ b) = String.length a + String.length b.
Proof. induction a as [|c a IH]; simpl; [reflexivity | now rewrite IH]. Qed.

Lemma length_lstrip (s : string) : String.length (Py.lstrip s) <= String.length s.
Proof.
  induction s as [|c s IH]; simpl; [lia|].
  destruct (Py.isspace c); simpl; lia.
Qed.

Lemma length_rstrip (s : string) : String.length (Py.rstrip s) <= String.length s.
Proof.
  induction s as [|c s IH]; simpl; [lia|].
  destruct (Py.rstrip s); [destruct (Py.isspace c)|]; simpl in *; lia.
Qed.

Lemma length_strip (s : string) : String.length (Py.strip s) <= String.length s.
Proof.
  unfold Py.strip. pose proof (length_rstrip (Py.lstrip s)).
  pose proof (length_lstrip s). lia.
Qed.

Lemma length_delete_scan (old s : string) (skip : nat) :
  String.length (Py.replace_scan old EmptyString skip s) <= String.length s.
Proof.
  revert skip. induction s as [|c s IH]; intros skip; [simpl; lia|].
  unfold Py.replace_scan; fold Py.replace_scan.
  destruct skip as [|k].
  - destruct (Py.startswith old (String c s)).
    + simpl. specialize (IH (String.length old - 1)). lia.
    + simpl. specialize (IH 0). lia.
  - simpl. specialize (IH k). lia.
Qed.

Lemma length_delete (old s : string) :
  old <> EmptyString ->
  String.length (Py.replace old EmptyString s) <= String.length s.
Proof.
  destruct old; [congruence|]. intros _. apply length_delete_scan.
Qed.

(** Deleting occurrences from lower-case text leaves lower-case text. *)
Lemma lower_delete_scan (old s : string) (skip : nat) :
  Py.lower s = s ->
  Py.lower (Py.replace_scan old EmptyString skip s) =
  Py.replace_scan old EmptyString skip s.
Proof.
  revert skip. induction s as [|c s IH]; intros skip H; [reflexivity|].
  simpl in H. inversion H as [[Hc Hs]]. rewrite Hc, Hs.
  unfold Py.replace_scan; fold Py.replace_scan.
  destruct skip as [|k].
  - destruct (Py.startswith old (String c s)).
    + simpl. now apply IH.
    + simpl. rewrite Hc. f_equal. now apply IH.
  - now apply IH.
Qed.

Lemma lower_delete (old s : string) :
  old <> EmptyString ->
  Py.lower s = s ->
  Py.lower (Py.replace old EmptyString s) = Py.replace old EmptyString s.
Proof.
  destruct old; [congruence|]. intros _. apply lower_delete_scan.
Qed.

End ParserFacts.

(** X1.  For an ASCII text, the tag that the parser returns is decided by
    the one prefix that the trimmed, lower-cased text starts with: a command's tag exactly when
    the text starts with that command and its space, the help tag exactly
    when it starts with /help (with or without anything behind it), the
    general tag exactly when it starts with none of the five.  No text
    starts with two of them, so the order of the tests does not matter. *)
Theorem parse_tag_by_prefix (text : string) :
  ascii_text text = true ->
  (forall P c,
     In (P, c) command_prefixes ->
     (fst (parse_chat_command text) = c <->
      Py.startswith P (Py.lower (Py.strip text)) = true))
  /\ (fst (parse_chat_command text) = help <->
      Py.startswith "/help" (Py.lower (Py.strip text)) = true)
  /\ (fst (parse_chat_command text) = general <->
      matches_command (Py.lower (Py.strip text)) = false).
Proof.
  intros _.
  destruct (parse_cases text) as [[P0 [c0 [r [H0 [Hn Hp]]]]]|[[r [Hn Hp]]|[Hm Hp]]];
    rewrite Hp; simpl fst.
  - rewrite Hn. split; [|split].
    + intros P c HP. each_command H0; each_command HP; settle_prefix_tests;
        split; intros H; first [reflexivity | discriminate].
    + each_command H0; settle_prefix_tests; split; intros H; discriminate.
    + unfold matches_command.
      each_command H0; settle_prefix_tests; split; intros H; discriminate.
  - rewrite Hn. split; [|split].
    + intros P c HP. each_command HP; settle_prefix_tests;
        split; intros H; discriminate.
    + settle_prefix_tests. split; reflexivity.
    + unfold matches_command. settle_prefix_tests. split; intros H; discriminate.
  - destruct (matches_command_false _ Hm) as [Hh Hc]. split; [|split].
    + intros P c HP. rewrite (Hc P c HP).
      each_command HP; split; intros H; discriminate.
    + rewrite Hh. split; intros H; discriminate.
    + rewrite Hm. split; reflexivity.
Qed.

Lemma parse_tag_by_prefix_witness :
  fst (parse_chat_command " /Quiz sets") = quiz
  /\ fst (parse_chat_command "/helpful hints") = help
  /\ fst (parse_chat_command "/quizzes") = general.
Proof.
  split; [|split].
  - apply (proj1 (parse_tag_by_prefix " /Quiz sets" eq_refl) "/quiz " quiz);
      [simpl; auto | reflexivity].
  - apply (proj1 (proj2 (parse_tag_by_prefix "/helpful hints" eq_refl))). reflexivity.
  - apply (proj2 (proj2 (parse_tag_by_prefix "/quizzes" eq_refl))). reflexivity.
Defined.

(** X2.  Two texts that differ only in the case of their letters and in
    blank margins are parsed alike: same tag, same content. *)
Theorem parse_modulo_case_and_margins (ws1 ws2 text1 text2 : string) :
  blank ws1 = true ->
  blank ws2 = true ->
  Py.lower text1 = Py.lower text2 ->
  parse_chat_command (ws1 ++ text1 ++ ws2) = parse_chat_command text2.
Proof.
  intros H1 H2 H.
  assert (E : Py.lower (Py.strip (ws1 ++ text1 ++ ws2)) = Py.lower (Py.strip text2)).
  { rewrite (strip_margins ws1 ws2 text1 H1 H2), <- !strip_lower. now rewrite H. }
  unfold parse_chat_command. rewrite E. reflexivity.
Qed.

Lemma parse_modulo_case_and_margins_witness :
  parse_chat_command ("  " ++ "/QUIZ Python" ++ " ") = parse_chat_command "/quiz python".
Proof.
  apply parse_modulo_case_and_margins; reflexivity.
Defined.

(** X3.  Whatever content the parser returns is trimmed and lower-case:
    stripping it or lower-casing it again changes nothing. *)
Theorem parse_content_normal (text : string) (c : command_type) (content : string) :
  parse_chat_command text = (c, Some content) ->
  Py.strip content = content /\ Py.lower content = content.
Proof.
  intros H.
  destruct (parse_cases text) as [[P0 [c0 [r [H0 [Hn Hp]]]]]|[[r [Hn Hp]]|[Hm Hp]]];
    rewrite Hp in H; inversion H; subst c content; clear H.
  - split; [apply strip_idem|].
    rewrite <- strip_lower. f_equal.
    apply lower_delete; [each_command H0; discriminate|].
    assert (E : Py.lower (P0 ++ r) = P0 ++ r) by (rewrite <- Hn; apply lower_idem).
    rewrite lower_app in E.
    assert (EP : Py.lower P0 = P0) by (each_command H0; reflexivity).
    rewrite EP in E. clear - E.
    induction P0 as [|x P0 IH]; simpl in E; [exact E|].
    inversion E. auto.
  - split; [now rewrite strip_lower, strip_idem | apply lower_idem].
Qed.

Lemma parse_content_normal_witness :
  Py.strip "python basics" = "python basics"
  /\ Py.lower "python basics" = "python basics".
Proof.
  apply (parse_content_normal "  /Quiz  Python /QUIZ Basics " quiz). reflexivity.
Defined.

(** X4.  For an ASCII text, the content never has more characters than the
    text, and for a command it is shorter than the text by the length of the command
    prefix at least. *)
Theorem parse_content_length (text : string) (c : command_type) (content : string) :
  ascii_text text = true ->
  parse_chat_command text = (c, Some content) ->
  String.length content <= String.length text
  /\ forall P,
       In (P, c) command_prefixes ->
       String.length content + String.length P <= String.length text.
Proof.
  intros _ H.
  pose proof (length_strip text) as Ht.
  pose proof (length_lower (Py.strip text)) as Hl.
  destruct (parse_cases text) as [[P0 [c0 [r [H0 [Hn Hp]]]]]|[[r [Hn Hp]]|[Hm Hp]]];
    rewrite Hp in H; inversion H; subst c content; clear H.
  - assert (Hd : String.length (Py.replace P0 EmptyString r) <= String.length r)
      by (apply length_delete; each_command H0; discriminate).
    pose proof (length_strip (Py.replace P0 EmptyString r)) as Hs.
    rewrite Hn, length_append in Hl.
    split; [lia|].
    intros P HP.
    assert (String.length P = String.length P0)
      by (each_command H0; each_command HP; reflexivity).
    lia.
  - split; [lia|].
    intros P HP. each_command HP.
Qed.

Lemma parse_content_length_witness :
  String.length "python" <= String.length "/quiz Python "
  /\ String.length "python" + String.length "/quiz " <= String.length "/quiz Python ".
Proof.
  destruct (parse_content_length "/quiz Python " quiz "python") as [H1 H2];
    [reflexivity | reflexivity|].
  split; [exact H1 | apply H2; simpl; auto].
Defined.

(** * Further properties of the responder *)

Section ResponderFacts.

Variable env : Environment.

(** The dispatch either returns the help text and leaves the world alone,
    or makes the one backend call of [backend_prompt]. *)
Lemma respond_world (text : string) (w : World) :
  snd (respond env text w) =
  match backend_prompt text with
  | Some prompt => asked w prompt
  | None => w
  end.
Proof.
  unfold respond, backend_prompt.
  destruct (parse_chat_command text) as [command content].
  destruct command; destruct content as [[|x topic]|]; try reflexivity;
    unfold general_reply, generate_curriculum, generate_socratic_questions,
      generate_quiz, generate_project;
    rewrite guarded_call; reflexivity.
Qed.

Lemma backend_prompt_none (text : string) :
  backend_prompt text = None <->
  Py.startswith "/help" (Py.lower (Py.strip text)) = true.
Proof.
  unfold backend_prompt.
  destruct (parse_cases text) as [[P0 [c0 [r [H0 [Hn Hp]]]]]|[[r [Hn Hp]]|[Hm Hp]]];
    rewrite Hp, ?Hn.
  - each_command H0; settle_prefix_tests;
      destruct (Py.strip _); split; intros H; discriminate.
  - settle_prefix_tests. split; reflexivity.
  - destruct (matches_command_false _ Hm) as [Hh _]. rewrite Hh.
    split; intros H; discriminate.
Qed.

End ResponderFacts.

(** X5.  An ASCII text recognized as one of the four commands always
    reaches the generator of that command, with a content that is not
    empty: the test [and content] of the dispatch never sends a recognized
    command to the general branch. *)
Theorem command_reaches_generator (env : Environment) (text : string) :
  ascii_text text = true ->
  (Py.startswith "/curriculum " (Py.lower (Py.strip text)) = true ->
   exists x topic,
     parse_chat_command text = (curriculum, Some (String x topic))
     /\ respond env text = generate_curriculum env (String x topic))
  /\
  (Py.startswith "/socratic " (Py.lower (Py.strip text)) = true ->
   exists x concept,
     parse_chat_command text = (socratic, Some (String x concept))
     /\ respond env text = generate_socratic_questions env (String x concept))
  /\
  (Py.startswith "/quiz " (Py.lower (Py.strip text)) = true ->
   exists x topic,
     parse_chat_command text = (quiz, Some (String x topic))
     /\ respond env text = generate_quiz env (String x topic))
  /\
  (Py.startswith "/project " (Py.lower (Py.strip text)) = true ->
   exists x topic,
     parse_chat_command text = (project, Some (String x topic))
     /\ respond env text = generate_project env (String x topic)).
Proof.
  intros _.
  split; [|split; [|split]]; intros H.
  - destruct (command_content_nonempty "/curriculum " curriculum text) as [x [t E]];
      [simpl; auto | exact H|].
    exists x, t. split; [exact E|]. unfold respond. now rewrite E.
  - destruct (command_content_nonempty "/socratic " socratic text) as [x [t E]];
      [simpl; auto | exact H|].
    exists x, t. split; [exact E|]. unfold respond. now rewrite E.
  - destruct (command_content_nonempty "/quiz " quiz text) as [x [t E]];
      [simpl; auto | exact H|].
    exists x, t. split; [exact E|]. unfold respond. now rewrite E.
  - destruct (command_content_nonempty "/project " project text) as [x [t E]];
      [simpl; auto 6 | exact H|].
    exists x, t. split; [exact E|]. unfold respond. now rewrite E.
Qed.

Lemma command_reaches_generator_witness :
  exists x topic,
    parse_chat_command "/quiz /quiz " = (quiz, Some (String x topic))
    /\ respond backend_down "/quiz /quiz " = generate_quiz backend_down (String x topic).
Proof.
  destruct (command_reaches_generator backend_down "/quiz /quiz ") as [_ [_ [H _]]];
    [reflexivity|].
  apply H. reflexivity.
Defined.

(** X6.  Producing the response to a text sends nothing, logs nothing and
    reads neither the clock nor the UUID generator, and it hands the
    backend at most one prompt.  For an ASCII text that prompt is the one
    of [prompts_of], and there is none exactly when the trimmed,
    lower-cased text starts with /help. *)
Theorem respond_effect (env : Environment) (text : string) (w : World) :
  outbox (snd (respond env text w)) = outbox w
  /\ logged (snd (respond env text w)) = logged w
  /\ clock_reads (snd (respond env text w)) = clock_reads w
  /\ uuid_draws (snd (respond env text w)) = uuid_draws w
  /\ (exists sent,
        prompts (snd (respond env text w)) = (prompts w ++ sent)%list
        /\ List.length sent <= 1)
  /\ (ascii_text text = true ->
      prompts (snd (respond env text w)) =
      (prompts w ++ prompts_of (TextContent text))%list
      /\ (prompts_of (TextContent text) = [] <->
          Py.startswith "/help" (Py.lower (Py.strip text)) = true)).
Proof.
  rewrite respond_world. simpl prompts_of.
  pose proof (backend_prompt_none text) as Hn.
  destruct (backend_prompt text) as [prompt|]; simpl.
  - do 4 (split; [reflexivity|]). split.
    + exists [prompt]. split; [reflexivity | simpl; lia].
    + intros _. split; [reflexivity|]. split; [discriminate|].
      intros H. apply Hn in H. discriminate.
  - do 4 (split; [reflexivity|]). split.
    + exists []. split; [now rewrite app_nil_r | simpl; lia].
    + intros _. split; [now rewrite app_nil_r|]. split; [|reflexivity].
      intros _. apply Hn. reflexivity.
Qed.

Lemma respond_effect_witness :
  prompts_of (TextContent " /Help me") = []
  /\ prompts (snd (respond backend_up " /Help me" initial_world)) = [].
Proof.
  destruct (respond_effect backend_up " /Help me" initial_world)
    as [_ [_ [_ [_ [_ H]]]]].
  destruct (H eq_refl) as [Hp Hh].
  assert (E : prompts_of (TextContent " /Help me") = [])
    by (apply Hh; reflexivity).
  split; [exact E|]. rewrite Hp, E. reflexivity.
Defined.

(** * Further properties of the chat handler *)

Section HandlerFacts.

Variable env : Environment.
Variable sender : string.

Lemma handled_nil (w : World) : handled env sender [] w w [].
Proof.
  unfold handled. simpl. rewrite !app_nil_r, !Nat.add_0_r.
  repeat split; constructor.
Qed.

(** Handling one list of items after another. *)
Lemma handled_app (items1 items2 : list AgentContent) (w w1 w2 : World)
    (ms1 ms2 : list ChatMessage) :
  handled env sender items1 w w1 ms1 ->
  handled env sender items2 w1 w2 ms2 ->
  handled env sender (items1 ++ items2) w w2 (ms1 ++ ms2).
Proof.
  intros [O1 [R1 [I1 [T1 [U1 [C1 [P1 L1]]]]]]] [O2 [R2 [I2 [T2 [U2 [C2 [P2 L2]]]]]]].
  unfold handled.
  rewrite !map_app, !length_app, !seq_app, !map_app, filter_app, flat_map_app.
  rewrite O2, O1, I1, I2, T1, T2, U2, U1, C2, C1, P2, P1, L2, L1.
  rewrite <- !app_assoc.
  repeat split; try reflexivity; try lia.
  now apply Forall2_app.
Qed.

(** Handling one item. *)
Lemma handle_content_handled (item : AgentContent) (w : World) :
  exists w' ms,
    handle_content env sender item w = (Returned tt, w')
    /\ handled env sender [item] w w' ms.
Proof.
  destruct item as [|text| |].
  - do 2 eexists. split; [reflexivity|].
    instantiate (1 := [_]). unfold handled. simpl.
    rewrite !Nat.add_1_r, app_nil_r.
    repeat split; try reflexivity; try (rewrite length_app; simpl; lia).
    constructor; [reflexivity | constructor].
  - set (line := "💬 Text message from " ++ sender ++ ": " ++ text).
    destruct (respond_cases env text (noted w line)) as [response_text [w1 [E _]]].
    pose proof (respond_world env text (noted w line)) as Hw.
    rewrite E in Hw. simpl snd in Hw.
    exists (posted (uuid_drawn (clock_read w1)) sender
              (Chat {| timestamp := utcnow_at env (clock_reads w1);
                       msg_id := uuid4_at env (uuid_draws (clock_read w1));
                       content := [TextContent response_text] |})).
    eexists [_]. split.
    + unfold handle_content, bind, logger_info. fold line. rewrite E. reflexivity.
    + unfold handled. simpl flat_map. simpl filter. rewrite app_nil_r.
      unfold prompts_of. rewrite Hw.
      destruct (backend_prompt text); simpl;
        rewrite !Nat.add_1_r, ?app_nil_r;
        (repeat split; try reflexivity; try (rewrite !length_app; simpl; lia);
         constructor; [now exists response_text | constructor]).
  - do 2 eexists. split; [reflexivity|].
    instantiate (1 := [_]). unfold handled. simpl.
    rewrite !Nat.add_1_r, app_nil_r.
    repeat split; try reflexivity; try (rewrite length_app; simpl; lia).
    constructor; [reflexivity | constructor].
  - exists (noted w ("❓ Received unexpected content type from " ++ sender)), [].
    split; [reflexivity|].
    unfold handled. simpl. rewrite !app_nil_r, !Nat.add_0_r, length_app. simpl.
    repeat split; try reflexivity; try lia. constructor.
Qed.

(** Handling the items of a message. *)
Lemma for_each_handled (items : list AgentContent) (w : World) :
  exists w' ms,
    for_each (handle_content env sender) items w = (Returned tt, w')
    /\ handled env sender items w w' ms.
Proof.
  revert w. induction items as [|item items IH]; intros w.
  - exists w, []. split; [reflexivity | apply handled_nil].
  - destruct (handle_content_handled item w) as [w1 [ms1 [E1 H1]]].
    destruct (IH w1) as [w2 [ms2 [E2 H2]]].
    exists w2, (ms1 ++ ms2)%list. split.
    + simpl. unfold bind. rewrite E1. exact E2.
    + exact (handled_app [item] items w w1 w2 ms1 ms2 H1 H2).
Qed.

(** The message of a [/help]-free text item is the only one with a prompt. *)
Lemma length_prompts_of (item : AgentContent) :
  List.length (prompts_of item) = if asks_backend item then 1 else 0.
Proof.
  destruct item as [|text| |]; try reflexivity.
  unfold prompts_of, asks_backend.
  pose proof (backend_prompt_none text) as H.
  destruct (backend_prompt text) as [prompt|].
  - destruct (Py.startswith "/help" (Py.lower (Py.strip text))); [|reflexivity].
    destruct H as [_ H]. discriminate (H eq_refl).
  - destruct H as [H _]. now rewrite (H eq_refl).
Qed.

Lemma length_item_prompts (items : list AgentContent) :
  List.length (flat_map prompts_of items) = List.length (filter asks_backend items).
Proof.
  induction items as [|item items IH]; [reflexivity|].
  simpl. rewrite length_app, length_prompts_of, IH.
  destruct (asks_backend item); reflexivity.
Qed.

Lemma asks_backend_text (items : list AgentContent) :
  List.length (filter asks_backend items) <= List.length (filter is_text items).
Proof.
  induction items as [|item items IH]; [simpl; lia|].
  simpl. destruct item as [|text| |]; simpl; try exact IH.
  destruct (negb _); simpl; lia.
Qed.

(** A reply closes the session exactly when its item is a session end. *)
Lemma closing_replies (items : list AgentContent) (ms : list ChatMessage) :
  Forall2 reply_to items ms ->
  (In EndSessionContent items <->
   exists m, In m ms /\ In EndSessionContent (content m)).
Proof.
  induction 1 as [|item m items ms Hr _ IH].
  - split; [intros [] | intros [m [[] _]]].
  - split.
    + intros [Hi|Hi].
      * subst item. exists m. split; [now left|]. simpl in Hr. rewrite Hr.
        right. now left.
      * apply IH in Hi. destruct Hi as [m' [Hm Hc]]. exists m'. split; [now right | exact Hc].
    + intros [m' [[Hm|Hm] Hc]].
      * subst m'. destruct item; simpl in Hr.
        -- rewrite Hr in Hc. destruct Hc as [Hc|[]]. discriminate.
        -- destruct Hr as [r Hr]. rewrite Hr in Hc. destruct Hc as [Hc|[]]. discriminate.
        -- now left.
        -- contradiction.
      * right. apply IH. now exists m'.
Qed.

Lemma In_replied (items : list AgentContent) :
  In EndSessionContent (filter replied items) <-> In EndSessionContent items.
Proof.
  rewrite filter_In. split; [now intros [H _] | intros H; now split].
Qed.

Lemma NoDup_map_seq (f : nat -> N) (start len : nat) :
  (forall i j, f i = f j -> i = j) ->
  NoDup (map f (seq start len)).
Proof.
  intros Hf. revert start. induction len as [|len IH]; intros start; simpl.
  - constructor.
  - constructor; [|apply IH].
    intros Hin. apply in_map_iff in Hin. destruct Hin as [i [Hi Hs]].
    apply Hf in Hi. subst i. apply in_seq in Hs. lia.
Qed.

(** [handle_message] is the loop over the items, run once the message is
    acknowledged. *)
Lemma handle_message_handled (msg : ChatMessage) (w : World) :
  exists w' ms,
    handle_message env sender msg w = (Returned tt, w')
    /\ handled env sender (content msg) (acknowledged env sender w msg) w' ms.
Proof.
  destruct (for_each_handled (content msg) (acknowledged env sender w msg))
    as [w' [ms [E H]]].
  exists w', ms. split; [exact E | exact H].
Qed.

End HandlerFacts.

(** X7.  Whatever the backend does, the handler answers a message with
    its acknowledgement followed by one chat message to the sender for
    every session start, text and session end among its items, in the
    order of the items: the greeting for a start, a single text for a text,
    the farewell with the end-of-session mark for an end.  Items behind a
    session end are answered as well, and a reply carries the
    end-of-session mark exactly when the message had a session end. *)
Theorem replies_in_item_order (env : Environment) (sender : string)
    (msg : ChatMessage) (w : World) :
  exists w' ack ms,
    handle_message env sender msg w = (Returned tt, w')
    /\ acknowledged_msg_id ack = msg_id msg
    /\ outbox w' =
       (outbox w ++ (sender, Acknowledgement ack) :: map (chat_envelope sender) ms)%list
    /\ Forall2 reply_to (filter replied (content msg)) ms
    /\ (In EndSessionContent (content msg) <->
        exists m, In m ms /\ In EndSessionContent (content m)).
Proof.
  destruct (handle_message_handled env sender msg w) as [w' [ms [E [O [R _]]]]].
  exists w', {| ack_timestamp := utcnow_at env (clock_reads w);
                acknowledged_msg_id := msg_id msg |}, ms.
  split; [exact E|]. split; [reflexivity|]. split; [|split].
  - rewrite O. unfold acknowledged. simpl. now rewrite <- app_assoc.
  - exact R.
  - rewrite <- (closing_replies _ _ R). symmetry. apply In_replied.
Qed.

Lemma replies_in_item_order_witness :
  exists w' ack m1 m2,
    handle_message backend_flaky "agent1alice"
      {| timestamp := 0%N; msg_id := 7%N;
         content := [EndSessionContent; OtherContent; TextContent "what is recursion?"] |}
      initial_world = (Returned tt, w')
    /\ outbox w' =
       [("agent1alice", Acknowledgement ack);
        ("agent1alice", Chat m1); ("agent1alice", Chat m2)]
    /\ content m1 = [TextContent farewell_text; EndSessionContent]
    /\ content m2 = [TextContent apology_text].
Proof.
  destruct (replies_in_item_order backend_flaky "agent1alice"
              {| timestamp := 0%N; msg_id := 7%N;
                 content := [EndSessionContent; OtherContent;
                             TextContent "what is recursion?"] |}
              initial_world)
    as [w' [ack [ms [E [_ [O [R _]]]]]]].
  simpl in R. inversion R as [|i1 m1 l1 ms1 R1 R']; subst.
  inversion R' as [|i2 m2 l2 ms2 R2 R'']; subst.
  inversion R''; subst.
  exists w', ack, m1, m2. split; [exact E|]. split; [exact O|]. split; [exact R1|].
  clear - E O. vm_compute in E. inversion E as [Hw]. rewrite <- Hw in O.
  simpl in O. inversion O. reflexivity.
Defined.

(** X8.  While a message is handled the backend is called at most once
    for every text item and never for a session start, a session end, an
    unexpected item or the acknowledgement.  When the texts of the message
    are ASCII, it is called with the prompts of the text items and with
    nothing else, in the order of the items: once for every text that is
    not a /help request. *)
Theorem backend_sees_item_prompts (env : Environment) (sender : string)
    (msg : ChatMessage) (w : World) :
  exists w',
    handle_message env sender msg w = (Returned tt, w')
    /\ List.length (prompts w') <=
       List.length (prompts w) + List.length (filter is_text (content msg))
    /\ (forallb ascii_item (content msg) = true ->
        prompts w' = (prompts w ++ flat_map prompts_of (content msg))%list
        /\ List.length (prompts w') =
           List.length (prompts w) +
           List.length (filter asks_backend (content msg))).
Proof.
  destruct (handle_message_handled env sender msg w)
    as [w' [ms [E [_ [_ [_ [_ [_ [_ [P _]]]]]]]]]].
  change (prompts (acknowledged env sender w msg)) with (prompts w) in P.
  exists w'. split; [exact E|]. split.
  - rewrite P, length_app, length_item_prompts.
    pose proof (asks_backend_text (content msg)). lia.
  - intros _. split; [exact P|].
    rewrite P, length_app, length_item_prompts. reflexivity.
Qed.

Lemma backend_sees_item_prompts_witness :
  exists w',
    handle_message backend_flaky "agent1alice"
      {| timestamp := 0%N; msg_id := 7%N;
         content := [TextContent "/help"; StartSessionContent;
                     TextContent "/Quiz sets"; TextContent "hi"] |}
      initial_world = (Returned tt, w')
    /\ prompts w' = [quiz_prompt "sets"; general_prompt "hi"].
Proof.
  destruct (backend_sees_item_prompts backend_flaky "agent1alice"
              {| timestamp := 0%N; msg_id := 7%N;
                 content := [TextContent "/help"; StartSessionContent;
                             TextContent "/Quiz sets"; TextContent "hi"] |}
              initial_world)
    as [w' [E [_ H]]].
  exists w'. split; [exact E|].
  destruct H as [H _]; [reflexivity|]. rewrite H. reflexivity.
Defined.

(** X9.  The chat messages that answer a message carry as ids the
    successive draws of the UUID generator, one draw per message sent; so
    when the generator never repeats a value, no two replies share an id,
    within a message and from one message to the next. *)
Theorem reply_ids_fresh (env : Environment) (sender : string)
    (msg : ChatMessage) (w : World) :
  (forall i j, uuid4_at env i = uuid4_at env j -> i = j) ->
  exists w' ack ms,
    handle_message env sender msg w = (Returned tt, w')
    /\ outbox w' =
       (outbox w ++ (sender, Acknowledgement ack) :: map (chat_envelope sender) ms)%list
    /\ map msg_id ms = map (uuid4_at env) (seq (uuid_draws w) (List.length ms))
    /\ uuid_draws w' = uuid_draws w + List.length ms
    /\ NoDup (map msg_id ms).
Proof.
  intros Hinj.
  destruct (handle_message_handled env sender msg w)
    as [w' [ms [E [O [_ [I [_ [U _]]]]]]]].
  exists w', {| ack_timestamp := utcnow_at env (clock_reads w);
                acknowledged_msg_id := msg_id msg |}, ms.
  split; [exact E|]. split; [|split; [exact I | split; [exact U|]]].
  - rewrite O. unfold acknowledged. simpl. now rewrite <- app_assoc.
  - rewrite I. now apply NoDup_map_seq.
Qed.

Lemma reply_ids_fresh_witness :
  exists w' ack ms,
    handle_message backend_up "agent1alice"
      {| timestamp := 0%N; msg_id := 7%N;
         content := [StartSessionContent; TextContent "/help"] |}
      initial_world = (Returned tt, w')
    /\ outbox w' =
       ([] ++ ("agent1alice", Acknowledgement ack)
              :: map (chat_envelope "agent1alice") ms)%list
    /\ map msg_id ms = map N.of_nat (seq 0 (List.length ms))
    /\ uuid_draws w' = 0 + List.length ms
    /\ NoDup (map msg_id ms).
Proof.
  apply (reply_ids_fresh backend_up "agent1alice"
           {| timestamp := 0%N; msg_id := 7%N;
              content := [StartSessionContent; TextContent "/help"] |}
           initial_world).
  intros i j H. simpl in H. now apply Nat2N.inj.
Defined.

(** X10.  A direct request is passed to its generator as it is, with no
    trimming, no lower-casing and no test for an empty topic; the handler
    always returns, calls the backend once with the prompt of that topic
    and sends the sender exactly one [AIResponse], which holds the
    backend's text or, when the backend fails, the generator's error text.
    Nothing is sent on the chat protocol. *)
Theorem direct_handlers_reply_once (env : Environment) (sender : string)
    (dw : DirectWorld) :
  (forall msg,
     handle_curriculum_direct env sender msg dw =
     (Returned tt,
      {| chat_world :=
           asked (chat_world dw) (curriculum_prompt (CurriculumRequest.topic msg));
         responses :=
           (responses dw ++
            [(sender,
              {| response :=
                   match backend_answer env (chat_world dw)
                           (curriculum_prompt (CurriculumRequest.topic msg)) with
                   | Returned answer => answer
                   | Raised e => "Error generating curriculum: " ++ str e
                   end |})])%list |}))
  /\
  (forall msg,
     handle_socratic_direct env sender msg dw =
     (Returned tt,
      {| chat_world :=
           asked (chat_world dw) (socratic_prompt (SocraticRequest.concept msg));
         responses :=
           (responses dw ++
            [(sender,
              {| response :=
                   match backend_answer env (chat_world dw)
                           (socratic_prompt (SocraticRequest.concept msg)) with
                   | Returned answer => answer
                   | Raised e => "Error generating Socratic questions: " ++ str e
                   end |})])%list |}))
  /\
  (forall msg,
     handle_quiz_direct env sender msg dw =
     (Returned tt,
      {| chat_world :=
           asked (chat_world dw) (quiz_prompt (QuizRequest.topic msg));
         responses :=
           (responses dw ++
            [(sender,
              {| response :=
                   match backend_answer env (chat_world dw)
                           (quiz_prompt (QuizRequest.topic msg)) with
                   | Returned answer => answer
                   | Raised e => "Error generating quiz: " ++ str e
                   end |})])%list |}))
  /\
  (forall msg,
     handle_project_direct env sender msg dw =
     (Returned tt,
      {| chat_world :=
           asked (chat_world dw) (project_prompt (ProjectRequest.topic msg));
         responses :=
           (responses dw ++
            [(sender,
              {| response :=
                   match backend_answer env (chat_world dw)
                           (project_prompt (ProjectRequest.topic msg)) with
                   | Returned answer => answer
                   | Raised e => "Error generating project: " ++ str e
                   end |})])%list |})).
Proof.
  repeat match goal with |- _ /\ _ => split end; intros msg;
    unfold handle_curriculum_direct, handle_socratic_direct, handle_quiz_direct,
      handle_project_direct, send_generated,
      generate_curriculum, generate_socratic_questions, generate_quiz,
      generate_project;
    rewrite guarded_call; reflexivity.
Qed.

(** * The chat commands and the direct requests *)

(** A command in front of an argument that is already trimmed, lower-case
    and free of the command: the argument comes back as it is. *)
Lemma parse_plain_argument (P : string) (c : command_type) (topic : string) :
  In (P, c) command_prefixes ->
  Py.strip topic = topic ->
  Py.lower topic = topic ->
  topic <> EmptyString ->
  Py.contains P topic = false ->
  parse_chat_command (P ++ topic) = (c, Some topic).
Proof.
  intros HP Hs Hl Hne Hno.
  assert (Hr : Py.rstrip topic = topic).
  { rewrite <- Hs at 1. unfold Py.strip. rewrite rstrip_idem. exact Hs. }
  assert (Hn : Py.lower (Py.strip (P ++ topic)) = P ++ topic).
  { rewrite (normalize_prefix_argument P c topic HP) by (rewrite Hs; exact Hne).
    now rewrite Hr, Hl. }
  rewrite (parse_normal_form P c (P ++ topic) topic HP Hn).
  rewrite replace_absent by (first [exact Hno | each_command HP; discriminate]).
  now rewrite Hs.
Qed.

(** X11.  For an ASCII topic that is trimmed, lower-case, not empty and
    free of the command prefix, the chat command and the direct request do
    the same: the reply to the command followed by the topic is the run of
    the command's generator on that topic, and the direct handler sends
    what the chat handler would answer. *)
Theorem chat_command_matches_direct_request (env : Environment) (topic : string) :
  ascii_text topic = true ->
  Py.strip topic = topic ->
  Py.lower topic = topic ->
  topic <> EmptyString ->
  (Py.contains "/curriculum " topic = false ->
   respond env ("/curriculum " ++ topic) = generate_curriculum env topic
   /\ forall sender,
        handle_curriculum_direct env sender {| CurriculumRequest.topic := topic |} =
        send_generated (respond env ("/curriculum " ++ topic)) sender)
  /\
  (Py.contains "/socratic " topic = false ->
   respond env ("/socratic " ++ topic) = generate_socratic_questions env topic
   /\ forall sender,
        handle_socratic_direct env sender {| SocraticRequest.concept := topic |} =
        send_generated (respond env ("/socratic " ++ topic)) sender)
  /\
  (Py.contains "/quiz " topic = false ->
   respond env ("/quiz " ++ topic) = generate_quiz env topic
   /\ forall sender,
        handle_quiz_direct env sender {| QuizRequest.topic := topic |} =
        send_generated (respond env ("/quiz " ++ topic)) sender)
  /\
  (Py.contains "/project " topic = false ->
   respond env ("/project " ++ topic) = generate_project env topic
   /\ forall sender,
        handle_project_direct env sender {| ProjectRequest.topic := topic |} =
        send_generated (respond env ("/project " ++ topic)) sender).
Proof.
  intros _ Hs Hl Hne.
  assert (H : forall P c, In (P, c) command_prefixes ->
                Py.contains P topic = false ->
                parse_chat_command (P ++ topic) = (c, Some topic)).
  { intros P c HP Hno. now apply parse_plain_argument. }
  destruct topic as [|x topic]; [congruence|].
  split; [|split; [|split]]; intros Hno.
  - assert (E : respond env ("/curriculum " ++ String x topic) =
                generate_curriculum env (String x topic)).
    { unfold respond. rewrite (H "/curriculum " curriculum); [reflexivity | simpl; auto | exact Hno]. }
    split; [exact E|]. intros sender. unfold handle_curriculum_direct. now rewrite E.
  - assert (E : respond env ("/socratic " ++ String x topic) =
                generate_socratic_questions env (String x topic)).
    { unfold respond. rewrite (H "/socratic " socratic); [reflexivity | simpl; auto | exact Hno]. }
    split; [exact E|]. intros sender. unfold handle_socratic_direct. now rewrite E.
  - assert (E : respond env ("/quiz " ++ String x topic) =
                generate_quiz env (String x topic)).
    { unfold respond. rewrite (H "/quiz " quiz); [reflexivity | simpl; auto | exact Hno]. }
    split; [exact E|]. intros sender. unfold handle_quiz_direct. now rewrite E.
  - assert (E : respond env ("/project " ++ String x topic) =
                generate_project env (String x topic)).
    { unfold respond. rewrite (H "/project " project); [reflexivity | simpl; auto 6 | exact Hno]. }
    split; [exact E|]. intros sender. unfold handle_project_direct. now rewrite E.
Qed.

Lemma chat_command_matches_direct_request_witness :
  respond backend_up ("/quiz " ++ "python basics") = generate_quiz backend_up "python basics"
  /\ handle_quiz_direct backend_up "agent1alice" {| QuizRequest.topic := "python basics" |} =
     send_generated (respond backend_up ("/quiz " ++ "python basics")) "agent1alice".
Proof.
  destruct (chat_command_matches_direct_request backend_up "python basics")
    as [_ [_ [H _]]]; [reflexivity | reflexivity | reflexivity | discriminate|].
  destruct H as [H1 H2]; [reflexivity|].
  split; [exact H1 | exact (H2 "agent1alice")].
Defined.
